(** * GearVRf unlit shader variants: a shallow embedding

    The four shader classes of [GVRf/Framework/jni/shaders/material]
    (CubemapShader, CubemapReflectionShader, OESShader and
    UnlitVerticalStereoShader) are embedded here:

    - the GLSL vertex and fragment stages held in the [VERTEX_SHADER] and
      [FRAGMENT_SHADER] string constants become functions over vectors and
      matrices of real numbers (GLSL [highp float] is idealised as [R]);
    - the C++ member functions (constructor, destructor, [recycle],
      [render]) become computations in a state-and-exception monad whose
      state records every call made to a collaborator (the GL, the mesh,
      the material) and the heap of live [GLProgram] objects. *)

From Stdlib Require Import ZArith List String Reals Lra Lia.
From stdpp Require Import base gmap strings.
Import ListNotations.

Local Open Scope Z_scope.

(** ** GLSL values and built-in functions *)

Module GLSL.

Record vec2 := Vec2 { x2 : R; y2 : R }.
Record vec3 := Vec3 { x3 : R; y3 : R; z3 : R }.
Record vec4 := Vec4 { x4 : R; y4 : R; z4 : R; w4 : R }.

(** The colour swizzles [.r .g .b .a] name the same components as
    [.x .y .z .w]. *)
Abbreviation r3 := x3 (only parsing).
Abbreviation g3 := y3 (only parsing).
Abbreviation b3 := z3 (only parsing).
Abbreviation r4 := x4 (only parsing).
Abbreviation g4 := y4 (only parsing).
Abbreviation b4 := z4 (only parsing).
Abbreviation a4 := w4 (only parsing).

(** [mat4] is column-major, as in GLSL and glm: [col0 .. col3]. *)
Record mat4 := Mat4 { col0 : vec4; col1 : vec4; col2 : vec4; col3 : vec4 }.

Local Open Scope R_scope.

(** [v.xyz] and [v.xy] *)
Definition xyz (v : vec4) : vec3 := Vec3 (x4 v) (y4 v) (z4 v).
Definition xy (v : vec4) : vec2 := Vec2 (x4 v) (y4 v).

(** [vec4(v, w)] *)
Definition vec4_of (v : vec3) (w : R) : vec4 := Vec4 (x3 v) (y3 v) (z3 v) w.

Definition add3 (a b : vec3) : vec3 :=
  Vec3 (x3 a + x3 b) (y3 a + y3 b) (z3 a + z3 b).
Definition sub3 (a b : vec3) : vec3 :=
  Vec3 (x3 a - x3 b) (y3 a - y3 b) (z3 a - z3 b).
Definition scale3 (k : R) (a : vec3) : vec3 :=
  Vec3 (k * x3 a) (k * y3 a) (k * z3 a).
(** [v / s] for a vector [v] and a scalar [s].  Over [R] the division is
    exact and total ([x / 0] is some real), where a GLSL float division
    rounds and gives an infinity or a NaN at a zero divisor: the properties
    below that rest on the value of a quotient are properties of this
    idealisation, and assume that the divisor is not zero. *)
Definition div3 (a : vec3) (s : R) : vec3 :=
  Vec3 (x3 a / s) (y3 a / s) (z3 a / s).

Definition dot (a b : vec3) : R := x3 a * x3 b + y3 a * y3 b + z3 a * z3 b.
Definition length3 (a : vec3) : R := sqrt (dot a a).
(** [normalize(v) = v / length(v)] *)
Definition normalize (a : vec3) : vec3 := div3 a (length3 a).
(** [reflect(I, N) = I - 2.0 * dot(N, I) * N] *)
Definition reflect (i n : vec3) : vec3 := sub3 i (scale3 (2 * dot n i) n).

(** [m * v]: the linear combination of the columns of [m]. *)
Definition mul_mat4_vec4 (m : mat4) (v : vec4) : vec4 :=
  Vec4 (x4 (col0 m) * x4 v + x4 (col1 m) * y4 v + x4 (col2 m) * z4 v + x4 (col3 m) * w4 v)
       (y4 (col0 m) * x4 v + y4 (col1 m) * y4 v + y4 (col2 m) * z4 v + y4 (col3 m) * w4 v)
       (z4 (col0 m) * x4 v + z4 (col1 m) * y4 v + z4 (col2 m) * z4 v + z4 (col3 m) * w4 v)
       (w4 (col0 m) * x4 v + w4 (col1 m) * y4 v + w4 (col2 m) * z4 v + w4 (col3 m) * w4 v).

Definition mat4_identity : mat4 :=
  Mat4 (Vec4 1 0 0 0) (Vec4 0 1 0 0) (Vec4 0 0 1 0) (Vec4 0 0 0 1).

(** [float(i)] for an [int] *)
Definition float (i : Z) : R := IZR i.

(** The assignment [v.z = e] to one component of a [vec3] variable. *)
Definition set_z (v : vec3) (e : R) : vec3 := Vec3 (x3 v) (y3 v) e.

(** Samplers: what [texture2D] and [textureCube] return at a coordinate. *)
Definition sampler2D := vec2 -> vec4.
Definition samplerExternalOES := vec2 -> vec4.
Definition samplerCube := vec3 -> vec4.
Definition texture2D (s : vec2 -> vec4) (c : vec2) : vec4 := s c.
Definition textureCube (s : samplerCube) (c : vec3) : vec4 := s c.

(** What a vertex stage writes: the varying and [gl_Position]. *)
Record vertex_out (V : Type) := VertexOut { v_tex_coord : V; gl_Position : vec4 }.
Arguments VertexOut {V} _ _.
Arguments v_tex_coord {V} _.
Arguments gl_Position {V} _.

End GLSL.
Import GLSL.

(** ** Names and constants *)

(** shaders/gl_names.h *)
Definition A_NORMAL : string := "a_normal".
Definition A_POSITION : string := "a_position".
Definition A_TEX_COORD : string := "a_tex_coord".
Definition U_COLOR : string := "u_color".
Definition U_FACTOR : string := "u_factor".
Definition U_MODEL : string := "u_model".
Definition U_MV : string := "u_mv".
Definition U_MV_IT : string := "u_mv_it".
Definition U_MVP : string := "u_mvp".
Definition U_OPACITY : string := "u_opacity".
Definition U_RIGHT : string := "u_right".
Definition U_TEXTURE : string := "u_texture".
Definition U_VIEW_I : string := "u_view_i".
Definition V_TEX_COORD : string := "v_tex_coord".

(** The OpenGL ES enumerants the four files use (GLES2/gl2.h, gl2ext.h). *)
Definition GL_FALSE : Z := 0.
Definition GL_TRIANGLES : Z := 0x0004.
Definition GL_UNSIGNED_SHORT : Z := 0x1403.
Definition GL_FLOAT : Z := 0x1406.
Definition GL_TEXTURE_2D : Z := 0x0DE1.
Definition GL_TEXTURE_CUBE_MAP : Z := 0x8513.
Definition GL_TEXTURE_EXTERNAL_OES : Z := 0x8D65.
Definition GL_TEXTURE0 : Z := 0x84C0.
Definition GL_INVALID_VALUE : Z := 0x0501.

(** Modelled from the spec: the material keys [MAIN_TEXTURE], [COLOR] and
    [OPACITY] are macros of a header that is not among the sources; the spec
    (section 3) names them as the three properties of the material property
    bag, and they are kept symbolic. *)
Inductive MaterialKey := MAIN_TEXTURE | COLOR | OPACITY.

(** ** Collaborators: texture, mesh, material, render data

    Modelled from the spec: the classes [Texture], [Mesh], [Material],
    [RenderData] and [GLProgram] are declared in headers that are not among
    the sources; the records below follow the contracts of section 6 of the
    spec and the member calls the four files make. *)

(** A call into a collaborator either returns a value or throws (the four
    files themselves throw a [std::string]). *)
Inductive result (A : Type) := Ok (a : A) | Thrown (e : string).
Arguments Ok {A} _.
Arguments Thrown {A} _.

(** Modelled from the spec: "getTarget() -> {2D, CubeMap, ExternalOES};
    getId() -> GPU handle"; the target is the GLenum render compares. *)
Record Texture := { getTarget : Z; getId : Z }.

(** Modelled from the spec: "exposes vertex positions, normals, texture
    coordinates, and a triangle index sequence (ordered, 16-bit indices)"
    and "an optional precomputed GPU-side vertex array handle". *)
Record Mesh := {
  vertices : list vec3;
  normals : list vec3;
  tex_coords : list vec2;
  triangles : list Z;        (* std::vector<unsigned short> *)
  getVAOId : Z               (* the vertex array name once generateVAO() has run *)
}.

(** Modelled from the spec: "getTexture(key) -> Texture; getVec3(key) ->
    (r,g,b); getFloat(key) -> scalar"; that an accessor may throw instead is
    left open by the spec and allowed here. *)
Record Material := {
  getTexture : MaterialKey -> result Texture;
  getVec3 : MaterialKey -> result vec3;
  getFloat : MaterialKey -> result R
}.

(** Modelled from the spec: "mesh() -> Mesh, material() -> Material". *)
Record RenderData := { mesh : Mesh; material : Material }.

(** ** Calls made by the shader classes *)

(** The client memory a pointer argument designates. *)
Inductive attrib_data := Floats3 (d : list vec3) | Floats2 (d : list vec2).
Inductive index_data := ClientIndices (d : list Z) | BufferOffset (o : Z).

Inductive gl_call :=
| GetAttribLocation (program : Z) (name : string)
| GetUniformLocation (program : Z) (name : string)
| UseProgram (program : Z)
| VertexAttribPointer (index size type normalized stride : Z) (pointer : attrib_data)
| EnableVertexAttribArray (index : Z)
| UniformMatrix4fv (location count transpose : Z) (value : mat4)
| ActiveTexture (texture : Z)
| BindTexture (target texture : Z)
| Uniform1i (location v0 : Z)
| Uniform3f (location : Z) (v0 v1 v2 : R)
| Uniform1f (location : Z) (v0 : R)
| BindVertexArray (array : Z)
| DrawElements (mode count type : Z) (indices : index_data).

Inductive mesh_call :=
| SetVertexLoc (loc : Z)
| SetTexCoordLoc (loc : Z)
| SetNormalLoc (loc : Z)
| GenerateVAO.

Inductive read :=
| ReadMesh                          (* render_data->mesh() *)
| ReadMaterial                      (* render_data->material() *)
| GetTexture (key : MaterialKey)
| GetVec3 (key : MaterialKey)
| GetFloat (key : MaterialKey).

Inductive event :=
| EvRead (r : read)
| EvMesh (c : mesh_call)
| EvGL (c : gl_call)
| EvNew (p : Z)                     (* new GLProgram(...) placed at address p *)
| EvDelete (p : Z).                 (* delete of the live GLProgram at address p *)

(** ** The world the member functions run in *)

(** Modelled from the spec: the program wrapper, "create(vertexSource,
    fragmentSource) -> handle | LinkError; id() -> opaque handle". *)
Record GLProgram := { id : Z }.

(** What the GL answers; fixed but arbitrary. *)
Record Driver := {
  attrib_location : Z -> string -> Z;   (* -1 when the name is not active *)
  uniform_location : Z -> string -> Z;  (* -1 when the name is not active *)
  program_name : Z -> result Z          (* name of the program built at an address,
                                           or the exception its construction throws *)
}.

Record World := {
  trace : list event;            (* calls made so far, oldest first *)
  heap : gmap Z GLProgram;       (* live GLProgram objects by address *)
  next_ptr : positive;           (* next address operator new hands out *)
  driver : Driver;
  gl_errors : list Z;            (* error codes glGetError has yet to report *)
  logged : list (string * Z)     (* what checkGlError has logged *)
}.

Definition with_trace (t : list event) (w : World) : World :=
  {| trace := t; heap := heap w; next_ptr := next_ptr w; driver := driver w;
     gl_errors := gl_errors w; logged := logged w |}.
Definition with_heap (h : gmap Z GLProgram) (w : World) : World :=
  {| trace := trace w; heap := h; next_ptr := next_ptr w; driver := driver w;
     gl_errors := gl_errors w; logged := logged w |}.
Definition with_next_ptr (n : positive) (w : World) : World :=
  {| trace := trace w; heap := heap w; next_ptr := n; driver := driver w;
     gl_errors := gl_errors w; logged := logged w |}.
Definition with_errors (e : list Z) (l : list (string * Z)) (w : World) : World :=
  {| trace := trace w; heap := heap w; next_ptr := next_ptr w; driver := driver w;
     gl_errors := e; logged := l |}.

(** A member function returns, throws a [std::string], or has undefined
    behaviour (a null or dangling [program_] is dereferenced or deleted). *)
Inductive outcome (A : Type) := Return (a : A) | Throw (e : string) | Undefined.
Arguments Return {A} _.
Arguments Throw {A} _.
Arguments Undefined {A}.

Definition M (A : Type) : Type := World -> outcome A * World.

Definition ret {A} (a : A) : M A := fun w => (Return a, w).
Definition bind {A B} (m : M A) (k : A -> M B) : M B := fun w =>
  match m w with
  | (Return a, w') => k a w'
  | (Throw e, w') => (Throw e, w')
  | (Undefined, w') => (Undefined, w')
  end.
Definition throw {A} (e : string) : M A := fun w => (Throw e, w).
Definition undefined {A} : M A := fun w => (Undefined, w).
Definition emit (e : event) : M unit := fun w => (Return tt, with_trace (trace w ++ [e]) w).
Definition of_result {A} (r : result A) : M A :=
  match r with Ok a => ret a | Thrown e => throw e end.

Declare Scope cpp_scope.
Delimit Scope cpp_scope with cpp.
Notation "x <- m ;; k" := (bind m (fun x => k))
  (at level 100, m at next level, right associativity) : cpp_scope.
Notation "m ;; k" := (bind m (fun _ => k))
  (at level 100, right associativity) : cpp_scope.
Local Open Scope cpp_scope.

(** [render_data->mesh()], [render_data->material()->getX(key)] *)
Definition RenderData_mesh (rd : RenderData) : M Mesh :=
  emit (EvRead ReadMesh) ;; ret (mesh rd).
Definition RenderData_material (rd : RenderData) : M Material :=
  emit (EvRead ReadMaterial) ;; ret (material rd).
Definition Material_getTexture (m : Material) (key : MaterialKey) : M Texture :=
  emit (EvRead (GetTexture key)) ;; of_result (getTexture m key).
Definition Material_getVec3 (m : Material) (key : MaterialKey) : M vec3 :=
  emit (EvRead (GetVec3 key)) ;; of_result (getVec3 m key).
Definition Material_getFloat (m : Material) (key : MaterialKey) : M R :=
  emit (EvRead (GetFloat key)) ;; of_result (getFloat m key).

(** [mesh->setVertexLoc(loc)] and friends.  The mesh class is outside these
    files: its mutators are recorded as calls and taken to return. *)
Definition Mesh_call (c : mesh_call) : M unit := emit (EvMesh c).

(** [new GLProgram(vertex, fragment)]: when the constructor throws, the
    storage is given back and no object exists. *)
Definition new_GLProgram : M Z := fun w =>
  let p := Z.pos (next_ptr w) in
  match program_name (driver w) p with
  | Ok name =>
      (Return p,
       with_trace (trace w ++ [EvNew p])
         (with_heap (<[p := {| id := name |}]> (heap w))
            (with_next_ptr (Pos.succ (next_ptr w)) w)))
  | Thrown e => (Throw e, w)
  end.

(** [delete p]: nothing for a null pointer, undefined for a dangling one. *)
Definition delete_GLProgram (p : Z) : M unit := fun w =>
  if p =? 0 then (Return tt, w)
  else match heap w !! p with
       | Some _ =>
           (Return tt, with_trace (trace w ++ [EvDelete p]) (with_heap (delete p (heap w)) w))
       | None => (Undefined, w)
       end.

(** [p->id()] *)
Definition GLProgram_id (p : Z) : M Z := fun w =>
  match heap w !! p with
  | Some prog => (Return (id prog), w)
  | None => (Undefined, w)
  end.

(** The GL entry points. *)
Definition gl (c : gl_call) : M unit := emit (EvGL c).
Definition glGetAttribLocation (program : Z) (name : string) : M Z := fun w =>
  (Return (attrib_location (driver w) program name),
   with_trace (trace w ++ [EvGL (GetAttribLocation program name)]) w).
Definition glGetUniformLocation (program : Z) (name : string) : M Z := fun w =>
  (Return (uniform_location (driver w) program name),
   with_trace (trace w ++ [EvGL (GetUniformLocation program name)]) w).
Definition glUseProgram program := gl (UseProgram program).
Definition glVertexAttribPointer index size type normalized stride pointer :=
  gl (VertexAttribPointer index size type normalized stride pointer).
Definition glEnableVertexAttribArray index := gl (EnableVertexAttribArray index).
Definition glUniformMatrix4fv location count transpose value :=
  gl (UniformMatrix4fv location count transpose value).
Definition glActiveTexture texture := gl (ActiveTexture texture).
Definition glBindTexture target texture := gl (BindTexture target texture).
Definition glUniform1i location v0 := gl (Uniform1i location v0).
Definition glUniform3f location v0 v1 v2 := gl (Uniform3f location v0 v1 v2).
Definition glUniform1f location v0 := gl (Uniform1f location v0).
Definition glBindVertexArray array := gl (BindVertexArray array).
Definition glDrawElements mode count type indices := gl (DrawElements mode count type indices).

(** Modelled from the spec: [checkGlError] is defined in util/gvr_gl.h,
    which is not among the sources.  The spec (sections 4.1 step 5 and 7)
    has the errors the GL surfaces after the draw sequence collected and
    logged under the caller's tag, never thrown: every pending error code
    is drained into the log and the call returns. *)
Definition checkGlError (op : string) : M unit := fun w =>
  (Return tt, with_errors [] (logged w ++ map (fun e => (op, e)) (gl_errors w)) w).

(** The conversion of a [size_t] to [GLsizei], a 32-bit signed [int]: the
    value modulo 2^32, read as two's complement. *)
Definition GLsizei_of_size_t (n : Z) : Z :=
  let m := n mod 2 ^ 32 in
  if m <? 2 ^ 31 then m else m - 2 ^ 32.

(** [v.size()] of a [std::vector] as the [GLsizei count] parameter of
    [glDrawElements] receives it. *)
Definition vector_size {A} (v : list A) : Z := GLsizei_of_size_t (Z.of_nat (length v)).
Arguments vector_size : simpl never.

(** ** CubemapShader (cubemap_shader.cpp) *)

Module CubemapShader.

(** <<
    v_tex_coord = normalize((u_model * a_position).xyz);
    v_tex_coord.z = -v_tex_coord.z;
    gl_Position = u_mvp * a_position;
    >> *)
Definition VERTEX_SHADER (u_model u_mvp : mat4) (a_position : vec4) : vertex_out vec3 :=
  let v_tex_coord := normalize (xyz (mul_mat4_vec4 u_model a_position)) in
  let v_tex_coord := set_z v_tex_coord (- z3 v_tex_coord) in
  let gl_Position := mul_mat4_vec4 u_mvp a_position in
  VertexOut v_tex_coord gl_Position.

(** <<
    vec4 color = textureCube(u_texture, v_tex_coord);
    gl_FragColor = vec4(color.r * u_color.r * u_opacity, ..., color.a * u_opacity);
    >> *)
Definition FRAGMENT_SHADER (u_texture : samplerCube) (u_color : vec3) (u_opacity : R)
    (v_tex_coord : vec3) : vec4 :=
  let color := textureCube u_texture v_tex_coord in
  Vec4 (r4 color * r3 u_color * u_opacity) (g4 color * g3 u_color * u_opacity)
       (b4 color * b3 u_color * u_opacity) (a4 color * u_opacity).

(** The members are a [GLProgram*] and the location handles; a handle holds
    what the location query returned. *)
Record t := {
  program_ : Z;
  a_position_ : Z;
  u_model_ : Z;
  u_mvp_ : Z;
  u_texture_ : Z;
  u_color_ : Z;
  u_opacity_ : Z
}.

Definition set_program_ (p : Z) (self : t) : t :=
  {| program_ := p; a_position_ := a_position_ self; u_model_ := u_model_ self;
     u_mvp_ := u_mvp_ self; u_texture_ := u_texture_ self; u_color_ := u_color_ self;
     u_opacity_ := u_opacity_ self |}.

(** The constructor: the member initialisers zero every field, then the
    body builds the program and resolves each name once. *)
Definition new : M t :=
  program_ <- new_GLProgram ;;
  a_position_ <- (i <- GLProgram_id program_ ;; glGetAttribLocation i A_POSITION) ;;
  u_model_ <- (i <- GLProgram_id program_ ;; glGetUniformLocation i U_MODEL) ;;
  u_mvp_ <- (i <- GLProgram_id program_ ;; glGetUniformLocation i U_MVP) ;;
  u_texture_ <- (i <- GLProgram_id program_ ;; glGetUniformLocation i U_TEXTURE) ;;
  u_color_ <- (i <- GLProgram_id program_ ;; glGetUniformLocation i U_COLOR) ;;
  u_opacity_ <- (i <- GLProgram_id program_ ;; glGetUniformLocation i U_OPACITY) ;;
  ret {| program_ := program_; a_position_ := a_position_; u_model_ := u_model_;
         u_mvp_ := u_mvp_; u_texture_ := u_texture_; u_color_ := u_color_;
         u_opacity_ := u_opacity_ |}.

(** <<
    delete program_;
    program_ = 0;
    >> *)
Definition recycle (self : t) : M t :=
  delete_GLProgram (program_ self) ;;
  ret (set_program_ 0 self).

(** The destructor: [if (program_ != 0) recycle();] *)
Definition destroy (self : t) : M t :=
  if negb (program_ self =? 0) then recycle self else ret self.

(** [render]; the build flag [_GVRF_USE_GLES3_] of the [#if] is the first
    argument. *)
Definition render (GVRF_USE_GLES3 : bool) (self : t) (model_matrix mvp_matrix : mat4)
    (render_data : RenderData) : M unit :=
  mesh <- RenderData_mesh render_data ;;
  texture <- (m <- RenderData_material render_data ;; Material_getTexture m MAIN_TEXTURE) ;;
  color <- (m <- RenderData_material render_data ;; Material_getVec3 m COLOR) ;;
  opacity <- (m <- RenderData_material render_data ;; Material_getFloat m OPACITY) ;;
  (if negb (getTarget texture =? GL_TEXTURE_CUBE_MAP)
   then throw "CubemapShader::render : texture with wrong target"
   else ret tt) ;;
  (if GVRF_USE_GLES3 then
     Mesh_call (SetVertexLoc (a_position_ self)) ;;
     Mesh_call GenerateVAO ;;
     (i <- GLProgram_id (program_ self) ;; glUseProgram i) ;;
     glUniformMatrix4fv (u_model_ self) 1 GL_FALSE model_matrix ;;
     glUniformMatrix4fv (u_mvp_ self) 1 GL_FALSE mvp_matrix ;;
     glActiveTexture GL_TEXTURE0 ;;
     glBindTexture (getTarget texture) (getId texture) ;;
     glUniform1i (u_texture_ self) 0 ;;
     glUniform3f (u_color_ self) (r3 color) (g3 color) (b3 color) ;;
     glUniform1f (u_opacity_ self) opacity ;;
     glBindVertexArray (getVAOId mesh) ;;
     glDrawElements GL_TRIANGLES (vector_size (triangles mesh)) GL_UNSIGNED_SHORT
       (BufferOffset 0) ;;
     glBindVertexArray 0
   else
     (i <- GLProgram_id (program_ self) ;; glUseProgram i) ;;
     glVertexAttribPointer (a_position_ self) 3 GL_FLOAT GL_FALSE 0 (Floats3 (vertices mesh)) ;;
     glEnableVertexAttribArray (a_position_ self) ;;
     glUniformMatrix4fv (u_model_ self) 1 GL_FALSE model_matrix ;;
     glUniformMatrix4fv (u_mvp_ self) 1 GL_FALSE mvp_matrix ;;
     glActiveTexture GL_TEXTURE0 ;;
     glBindTexture (getTarget texture) (getId texture) ;;
     glUniform1i (u_texture_ self) 0 ;;
     glUniform3f (u_color_ self) (r3 color) (g3 color) (b3 color) ;;
     glUniform1f (u_opacity_ self) opacity ;;
     glDrawElements GL_TRIANGLES (vector_size (triangles mesh)) GL_UNSIGNED_SHORT
       (ClientIndices (triangles mesh))) ;;
  checkGlError "CubemapShader::render".

End CubemapShader.

(** ** CubemapReflectionShader (cubemap_reflection_shader.cpp) *)

Module CubemapReflectionShader.

(** <<
    vec4 v_viewspace_position_vec4 = u_mv * a_position;
    vec3 v_viewspace_position = v_viewspace_position_vec4.xyz / v_viewspace_position_vec4.w;
    vec3 v_viewspace_normal = (u_mv_it * vec4(a_normal, 1.0f)).xyz;
    vec3 v_reflected_position = reflect(v_viewspace_position, normalize(v_viewspace_normal));
    v_tex_coord = (u_view_i * vec4(v_reflected_position, 1.0f)).xyz;
    v_tex_coord.z = -v_tex_coord.z;
    gl_Position = u_mvp * a_position;
    >> *)
Definition VERTEX_SHADER (u_mv u_mv_it u_mvp u_view_i : mat4)
    (a_position : vec4) (a_normal : vec3) : vertex_out vec3 :=
  let v_viewspace_position_vec4 := mul_mat4_vec4 u_mv a_position in
  let v_viewspace_position :=
    div3 (xyz v_viewspace_position_vec4) (w4 v_viewspace_position_vec4) in
  let v_viewspace_normal := xyz (mul_mat4_vec4 u_mv_it (vec4_of a_normal 1)) in
  let v_reflected_position :=
    reflect v_viewspace_position (normalize v_viewspace_normal) in
  let v_tex_coord := xyz (mul_mat4_vec4 u_view_i (vec4_of v_reflected_position 1)) in
  let v_tex_coord := set_z v_tex_coord (- z3 v_tex_coord) in
  let gl_Position := mul_mat4_vec4 u_mvp a_position in
  VertexOut v_tex_coord gl_Position.

(** <<
    vec4 color = textureCube(u_texture, v_tex_coord.xyz);
    gl_FragColor = vec4(color.r * u_color.r * u_opacity, ..., color.a * u_opacity);
    >> *)
Definition FRAGMENT_SHADER (u_texture : samplerCube) (u_color : vec3) (u_opacity : R)
    (v_tex_coord : vec3) : vec4 :=
  let color := textureCube u_texture (Vec3 (x3 v_tex_coord) (y3 v_tex_coord) (z3 v_tex_coord)) in
  Vec4 (r4 color * r3 u_color * u_opacity) (g4 color * g3 u_color * u_opacity)
       (b4 color * b3 u_color * u_opacity) (a4 color * u_opacity).

(** The members are a [GLProgram*] and the location handles; a handle holds
    what the location query returned. *)
Record t := {
  program_ : Z;
  a_position_ : Z;
  a_normal_ : Z;
  u_mv_ : Z;
  u_mv_it_ : Z;
  u_mvp_ : Z;
  u_view_i_ : Z;
  u_texture_ : Z;
  u_color_ : Z;
  u_opacity_ : Z
}.

Definition set_program_ (p : Z) (self : t) : t :=
  {| program_ := p; a_position_ := a_position_ self; a_normal_ := a_normal_ self;
     u_mv_ := u_mv_ self; u_mv_it_ := u_mv_it_ self; u_mvp_ := u_mvp_ self;
     u_view_i_ := u_view_i_ self; u_texture_ := u_texture_ self; u_color_ := u_color_ self;
     u_opacity_ := u_opacity_ self |}.

(** The constructor: the member initialisers zero every field, then the
    body builds the program and resolves each name once. *)
Definition new : M t :=
  program_ <- new_GLProgram ;;
  a_position_ <- (i <- GLProgram_id program_ ;; glGetAttribLocation i A_POSITION) ;;
  a_normal_ <- (i <- GLProgram_id program_ ;; glGetAttribLocation i A_NORMAL) ;;
  u_mv_ <- (i <- GLProgram_id program_ ;; glGetUniformLocation i U_MV) ;;
  u_mv_it_ <- (i <- GLProgram_id program_ ;; glGetUniformLocation i U_MV_IT) ;;
  u_mvp_ <- (i <- GLProgram_id program_ ;; glGetUniformLocation i U_MVP) ;;
  u_view_i_ <- (i <- GLProgram_id program_ ;; glGetUniformLocation i U_VIEW_I) ;;
  u_texture_ <- (i <- GLProgram_id program_ ;; glGetUniformLocation i U_TEXTURE) ;;
  u_color_ <- (i <- GLProgram_id program_ ;; glGetUniformLocation i U_COLOR) ;;
  u_opacity_ <- (i <- GLProgram_id program_ ;; glGetUniformLocation i U_OPACITY) ;;
  ret {| program_ := program_; a_position_ := a_position_; a_normal_ := a_normal_;
         u_mv_ := u_mv_; u_mv_it_ := u_mv_it_; u_mvp_ := u_mvp_; u_view_i_ := u_view_i_;
         u_texture_ := u_texture_; u_color_ := u_color_; u_opacity_ := u_opacity_ |}.

(** <<
    delete program_;
    program_ = 0;
    >> *)
Definition recycle (self : t) : M t :=
  delete_GLProgram (program_ self) ;;
  ret (set_program_ 0 self).

(** The destructor: [if (program_ != 0) recycle();] *)
Definition destroy (self : t) : M t :=
  if negb (program_ self =? 0) then recycle self else ret self.

(** [render]; the build flag [_GVRF_USE_GLES3_] of the [#if] is the first
    argument. *)
Definition render (GVRF_USE_GLES3 : bool) (self : t)
    (mv_matrix mv_it_matrix view_invers_matrix mvp_matrix : mat4)
    (render_data : RenderData) : M unit :=
  mesh <- RenderData_mesh render_data ;;
  texture <- (m <- RenderData_material render_data ;; Material_getTexture m MAIN_TEXTURE) ;;
  color <- (m <- RenderData_material render_data ;; Material_getVec3 m COLOR) ;;
  opacity <- (m <- RenderData_material render_data ;; Material_getFloat m OPACITY) ;;
  (if negb (getTarget texture =? GL_TEXTURE_CUBE_MAP)
   then throw "CubemapReflectionShader::render : texture with wrong target"
   else ret tt) ;;
  (if GVRF_USE_GLES3 then
     Mesh_call (SetVertexLoc (a_position_ self)) ;;
     Mesh_call (SetNormalLoc (a_normal_ self)) ;;
     Mesh_call GenerateVAO ;;
     (i <- GLProgram_id (program_ self) ;; glUseProgram i) ;;
     glUniformMatrix4fv (u_mv_ self) 1 GL_FALSE mv_matrix ;;
     glUniformMatrix4fv (u_mv_it_ self) 1 GL_FALSE mv_it_matrix ;;
     glUniformMatrix4fv (u_mvp_ self) 1 GL_FALSE mvp_matrix ;;
     glUniformMatrix4fv (u_view_i_ self) 1 GL_FALSE view_invers_matrix ;;
     glActiveTexture GL_TEXTURE0 ;;
     glBindTexture (getTarget texture) (getId texture) ;;
     glUniform1i (u_texture_ self) 0 ;;
     glUniform3f (u_color_ self) (r3 color) (g3 color) (b3 color) ;;
     glUniform1f (u_opacity_ self) opacity ;;
     glBindVertexArray (getVAOId mesh) ;;
     glDrawElements GL_TRIANGLES (vector_size (triangles mesh)) GL_UNSIGNED_SHORT
       (BufferOffset 0) ;;
     glBindVertexArray 0
   else
     (i <- GLProgram_id (program_ self) ;; glUseProgram i) ;;
     glVertexAttribPointer (a_position_ self) 3 GL_FLOAT GL_FALSE 0 (Floats3 (vertices mesh)) ;;
     glEnableVertexAttribArray (a_position_ self) ;;
     glUniformMatrix4fv (u_mv_ self) 1 GL_FALSE mv_matrix ;;
     glUniformMatrix4fv (u_mv_it_ self) 1 GL_FALSE mv_it_matrix ;;
     glUniformMatrix4fv (u_mvp_ self) 1 GL_FALSE mvp_matrix ;;
     glUniformMatrix4fv (u_view_i_ self) 1 GL_FALSE view_invers_matrix ;;
     glActiveTexture GL_TEXTURE0 ;;
     glBindTexture (getTarget texture) (getId texture) ;;
     glUniform1i (u_texture_ self) 0 ;;
     glUniform3f (u_color_ self) (r3 color) (g3 color) (b3 color) ;;
     glUniform1f (u_opacity_ self) opacity ;;
     glDrawElements GL_TRIANGLES (vector_size (triangles mesh)) GL_UNSIGNED_SHORT
       (ClientIndices (triangles mesh))) ;;
  checkGlError "CubemapReflectionShader::render".

End CubemapReflectionShader.

(** ** OESShader (oes_shader.cpp) *)

Module OESShader.

(** <<
    v_tex_coord = a_tex_coord.xy;
    gl_Position = u_mvp * a_position;
    >> *)
Definition VERTEX_SHADER (u_mvp : mat4) (a_position a_tex_coord : vec4) : vertex_out vec2 :=
  let v_tex_coord := xy a_tex_coord in
  let gl_Position := mul_mat4_vec4 u_mvp a_position in
  VertexOut v_tex_coord gl_Position.

(** <<
    vec4 color = texture2D(u_texture, v_tex_coord);
    gl_FragColor = vec4(color.r * u_color.r * u_opacity, ..., color.a * u_opacity);
    >> *)
Definition FRAGMENT_SHADER (u_texture : samplerExternalOES) (u_color : vec3) (u_opacity : R)
    (v_tex_coord : vec2) : vec4 :=
  let color := texture2D u_texture v_tex_coord in
  Vec4 (r4 color * r3 u_color * u_opacity) (g4 color * g3 u_color * u_opacity)
       (b4 color * b3 u_color * u_opacity) (a4 color * u_opacity).

(** The members are a [GLProgram*] and the location handles; a handle holds
    what the location query returned. *)
Record t := {
  program_ : Z;
  a_position_ : Z;
  a_tex_coord_ : Z;
  u_mvp_ : Z;
  u_texture_ : Z;
  u_color_ : Z;
  u_opacity_ : Z
}.

Definition set_program_ (p : Z) (self : t) : t :=
  {| program_ := p; a_position_ := a_position_ self; a_tex_coord_ := a_tex_coord_ self;
     u_mvp_ := u_mvp_ self; u_texture_ := u_texture_ self; u_color_ := u_color_ self;
     u_opacity_ := u_opacity_ self |}.

(** The constructor: the member initialisers zero every field, then the
    body builds the program and resolves each name once. *)
Definition new : M t :=
  program_ <- new_GLProgram ;;
  a_position_ <- (i <- GLProgram_id program_ ;; glGetAttribLocation i A_POSITION) ;;
  a_tex_coord_ <- (i <- GLProgram_id program_ ;; glGetAttribLocation i A_TEX_COORD) ;;
  u_mvp_ <- (i <- GLProgram_id program_ ;; glGetUniformLocation i U_MVP) ;;
  u_texture_ <- (i <- GLProgram_id program_ ;; glGetUniformLocation i U_TEXTURE) ;;
  u_color_ <- (i <- GLProgram_id program_ ;; glGetUniformLocation i U_COLOR) ;;
  u_opacity_ <- (i <- GLProgram_id program_ ;; glGetUniformLocation i U_OPACITY) ;;
  ret {| program_ := program_; a_position_ := a_position_; a_tex_coord_ := a_tex_coord_;
         u_mvp_ := u_mvp_; u_texture_ := u_texture_; u_color_ := u_color_;
         u_opacity_ := u_opacity_ |}.

(** <<
    delete program_;
    program_ = 0;
    >> *)
Definition recycle (self : t) : M t :=
  delete_GLProgram (program_ self) ;;
  ret (set_program_ 0 self).

(** The destructor: [if (program_ != 0) recycle();] *)
Definition destroy (self : t) : M t :=
  if negb (program_ self =? 0) then recycle self else ret self.

(** [render]; the build flag [_GVRF_USE_GLES3_] of the [#if] is the first
    argument. *)
Definition render (GVRF_USE_GLES3 : bool) (self : t) (mvp_matrix : mat4)
    (render_data : RenderData) : M unit :=
  mesh <- RenderData_mesh render_data ;;
  texture <- (m <- RenderData_material render_data ;; Material_getTexture m MAIN_TEXTURE) ;;
  color <- (m <- RenderData_material render_data ;; Material_getVec3 m COLOR) ;;
  opacity <- (m <- RenderData_material render_data ;; Material_getFloat m OPACITY) ;;
  (if negb (getTarget texture =? GL_TEXTURE_EXTERNAL_OES)
   then throw "OESShader::render : texture with wrong target"
   else ret tt) ;;
  (if GVRF_USE_GLES3 then
     Mesh_call (SetVertexLoc (a_position_ self)) ;;
     Mesh_call (SetTexCoordLoc (a_tex_coord_ self)) ;;
     Mesh_call GenerateVAO ;;
     (i <- GLProgram_id (program_ self) ;; glUseProgram i) ;;
     glUniformMatrix4fv (u_mvp_ self) 1 GL_FALSE mvp_matrix ;;
     glActiveTexture GL_TEXTURE0 ;;
     glBindTexture (getTarget texture) (getId texture) ;;
     glUniform1i (u_texture_ self) 0 ;;
     glUniform3f (u_color_ self) (r3 color) (g3 color) (b3 color) ;;
     glUniform1f (u_opacity_ self) opacity ;;
     glBindVertexArray (getVAOId mesh) ;;
     glDrawElements GL_TRIANGLES (vector_size (triangles mesh)) GL_UNSIGNED_SHORT
       (BufferOffset 0) ;;
     glBindVertexArray 0
   else
     (i <- GLProgram_id (program_ self) ;; glUseProgram i) ;;
     glVertexAttribPointer (a_position_ self) 3 GL_FLOAT GL_FALSE 0 (Floats3 (vertices mesh)) ;;
     glEnableVertexAttribArray (a_position_ self) ;;
     glVertexAttribPointer (a_tex_coord_ self) 2 GL_FLOAT GL_FALSE 0 (Floats2 (tex_coords mesh)) ;;
     glEnableVertexAttribArray (a_tex_coord_ self) ;;
     glUniformMatrix4fv (u_mvp_ self) 1 GL_FALSE mvp_matrix ;;
     glActiveTexture GL_TEXTURE0 ;;
     glBindTexture (getTarget texture) (getId texture) ;;
     glUniform1i (u_texture_ self) 0 ;;
     glUniform3f (u_color_ self) (r3 color) (g3 color) (b3 color) ;;
     glUniform1f (u_opacity_ self) opacity ;;
     glDrawElements GL_TRIANGLES (vector_size (triangles mesh)) GL_UNSIGNED_SHORT
       (ClientIndices (triangles mesh))) ;;
  checkGlError "OESShader::render".

End OESShader.

(** ** UnlitVerticalStereoShader (unlit_vertical_stereo_shader.cpp) *)

Module UnlitVerticalStereoShader.

Definition VERTEX_SHADER (u_mvp : mat4) (a_position a_tex_coord : vec4) : vertex_out vec2 :=
  let v_tex_coord := xy a_tex_coord in
  let gl_Position := mul_mat4_vec4 u_mvp a_position in
  VertexOut v_tex_coord gl_Position.

(** [vec2 tex_coord = vec2(v_tex_coord.x, 0.5 * (v_tex_coord.y + float(u_right)));]
    Over [R] the sum and the product are exact, where the GLSL floats round. *)
Definition tex_coord (u_right : Z) (v_tex_coord : vec2) : vec2 :=
  Vec2 (x2 v_tex_coord) (0.5 * (y2 v_tex_coord + float u_right)).

(** <<
    vec2 tex_coord = ...;
    vec4 color = texture2D(u_texture, tex_coord);
    gl_FragColor = vec4(color.r * u_color.r * u_opacity, ..., color.a * u_opacity);
    >> *)
Definition FRAGMENT_SHADER (u_texture : sampler2D) (u_color : vec3) (u_opacity : R)
    (u_right : Z) (v_tex_coord : vec2) : vec4 :=
  let tex_coord := tex_coord u_right v_tex_coord in
  let color := texture2D u_texture tex_coord in
  Vec4 (r4 color * r3 u_color * u_opacity) (g4 color * g3 u_color * u_opacity)
       (b4 color * b3 u_color * u_opacity) (a4 color * u_opacity).

(** The members are a [GLProgram*] and the location handles; a handle holds
    what the location query returned. *)
Record t := {
  program_ : Z;
  a_position_ : Z;
  a_tex_coord_ : Z;
  u_mvp_ : Z;
  u_texture_ : Z;
  u_color_ : Z;
  u_opacity_ : Z;
  u_right_ : Z
}.

Definition set_program_ (p : Z) (self : t) : t :=
  {| program_ := p; a_position_ := a_position_ self; a_tex_coord_ := a_tex_coord_ self;
     u_mvp_ := u_mvp_ self; u_texture_ := u_texture_ self; u_color_ := u_color_ self;
     u_opacity_ := u_opacity_ self; u_right_ := u_right_ self |}.

(** The constructor: the member initialisers zero every field, then the
    body builds the program and resolves each name once. *)
Definition new : M t :=
  program_ <- new_GLProgram ;;
  a_position_ <- (i <- GLProgram_id program_ ;; glGetAttribLocation i A_POSITION) ;;
  a_tex_coord_ <- (i <- GLProgram_id program_ ;; glGetAttribLocation i A_TEX_COORD) ;;
  u_mvp_ <- (i <- GLProgram_id program_ ;; glGetUniformLocation i U_MVP) ;;
  u_texture_ <- (i <- GLProgram_id program_ ;; glGetUniformLocation i U_TEXTURE) ;;
  u_color_ <- (i <- GLProgram_id program_ ;; glGetUniformLocation i U_COLOR) ;;
  u_opacity_ <- (i <- GLProgram_id program_ ;; glGetUniformLocation i U_OPACITY) ;;
  u_right_ <- (i <- GLProgram_id program_ ;; glGetUniformLocation i U_RIGHT) ;;
  ret {| program_ := program_; a_position_ := a_position_; a_tex_coord_ := a_tex_coord_;
         u_mvp_ := u_mvp_; u_texture_ := u_texture_; u_color_ := u_color_;
         u_opacity_ := u_opacity_; u_right_ := u_right_ |}.

(** <<
    delete program_;
    program_ = 0;
    >> *)
Definition recycle (self : t) : M t :=
  delete_GLProgram (program_ self) ;;
  ret (set_program_ 0 self).

(** The destructor: [if (program_ != 0) recycle();] *)
Definition destroy (self : t) : M t :=
  if negb (program_ self =? 0) then recycle self else ret self.

(** [render]; the build flag [_GVRF_USE_GLES3_] of the [#if] is the first
    argument. *)
Definition render (GVRF_USE_GLES3 : bool) (self : t) (mvp_matrix : mat4)
    (render_data : RenderData) (right : bool) : M unit :=
  mesh <- RenderData_mesh render_data ;;
  texture <- (m <- RenderData_material render_data ;; Material_getTexture m MAIN_TEXTURE) ;;
  color <- (m <- RenderData_material render_data ;; Material_getVec3 m COLOR) ;;
  opacity <- (m <- RenderData_material render_data ;; Material_getFloat m OPACITY) ;;
  (if negb (getTarget texture =? GL_TEXTURE_2D)
   then throw "UnlitVerticalStereoShader::render : texture with wrong target"
   else ret tt) ;;
  (if GVRF_USE_GLES3 then
     Mesh_call (SetVertexLoc (a_position_ self)) ;;
     Mesh_call (SetTexCoordLoc (a_tex_coord_ self)) ;;
     Mesh_call GenerateVAO ;;
     (i <- GLProgram_id (program_ self) ;; glUseProgram i) ;;
     glUniformMatrix4fv (u_mvp_ self) 1 GL_FALSE mvp_matrix ;;
     glActiveTexture GL_TEXTURE0 ;;
     glBindTexture (getTarget texture) (getId texture) ;;
     glUniform1i (u_texture_ self) 0 ;;
     glUniform3f (u_color_ self) (r3 color) (g3 color) (b3 color) ;;
     glUniform1f (u_opacity_ self) opacity ;;
     glUniform1i (u_right_ self) (if right then 1 else 0) ;;
     glBindVertexArray (getVAOId mesh) ;;
     glDrawElements GL_TRIANGLES (vector_size (triangles mesh)) GL_UNSIGNED_SHORT
       (BufferOffset 0) ;;
     glBindVertexArray 0
   else
     (i <- GLProgram_id (program_ self) ;; glUseProgram i) ;;
     glVertexAttribPointer (a_position_ self) 3 GL_FLOAT GL_FALSE 0 (Floats3 (vertices mesh)) ;;
     glEnableVertexAttribArray (a_position_ self) ;;
     glVertexAttribPointer (a_tex_coord_ self) 2 GL_FLOAT GL_FALSE 0 (Floats2 (tex_coords mesh)) ;;
     glEnableVertexAttribArray (a_tex_coord_ self) ;;
     glUniformMatrix4fv (u_mvp_ self) 1 GL_FALSE mvp_matrix ;;
     glActiveTexture GL_TEXTURE0 ;;
     glBindTexture (getTarget texture) (getId texture) ;;
     glUniform1i (u_texture_ self) 0 ;;
     glUniform3f (u_color_ self) (r3 color) (g3 color) (b3 color) ;;
     glUniform1f (u_opacity_ self) opacity ;;
     glUniform1i (u_right_ self) (if right then 1 else 0) ;;
     glDrawElements GL_TRIANGLES (vector_size (triangles mesh)) GL_UNSIGNED_SHORT
       (ClientIndices (triangles mesh))) ;;
  checkGlError "UnlitShader::render".

End UnlitVerticalStereoShader.

(** ** The four variants behind one interface *)

Inductive variant := VCubemap | VCubemapReflection | VOES | VVerticalStereo.

Inductive shader :=
| Cubemap (self : CubemapShader.t)
| CubemapReflection (self : CubemapReflectionShader.t)
| OES (self : OESShader.t)
| VerticalStereo (self : UnlitVerticalStereoShader.t).

(** The arguments of the four [render] signatures, side by side. *)
Record render_args := {
  model_matrix : mat4;
  mv_matrix : mat4;
  mv_it_matrix : mat4;
  view_invers_matrix : mat4;
  mvp_matrix : mat4;
  right : bool
}.

Definition variant_of (s : shader) : variant :=
  match s with
  | Cubemap _ => VCubemap
  | CubemapReflection _ => VCubemapReflection
  | OES _ => VOES
  | VerticalStereo _ => VVerticalStereo
  end.

Definition new (v : variant) : M shader :=
  match v with
  | VCubemap => s <- CubemapShader.new ;; ret (Cubemap s)
  | VCubemapReflection => s <- CubemapReflectionShader.new ;; ret (CubemapReflection s)
  | VOES => s <- OESShader.new ;; ret (OES s)
  | VVerticalStereo => s <- UnlitVerticalStereoShader.new ;; ret (VerticalStereo s)
  end.

Definition recycle (s : shader) : M shader :=
  match s with
  | Cubemap self => s <- CubemapShader.recycle self ;; ret (Cubemap s)
  | CubemapReflection self => s <- CubemapReflectionShader.recycle self ;; ret (CubemapReflection s)
  | OES self => s <- OESShader.recycle self ;; ret (OES s)
  | VerticalStereo self => s <- UnlitVerticalStereoShader.recycle self ;; ret (VerticalStereo s)
  end.

Definition destroy (s : shader) : M shader :=
  match s with
  | Cubemap self => s <- CubemapShader.destroy self ;; ret (Cubemap s)
  | CubemapReflection self => s <- CubemapReflectionShader.destroy self ;; ret (CubemapReflection s)
  | OES self => s <- OESShader.destroy self ;; ret (OES s)
  | VerticalStereo self => s <- UnlitVerticalStereoShader.destroy self ;; ret (VerticalStereo s)
  end.

Definition render (GVRF_USE_GLES3 : bool) (s : shader) (a : render_args)
    (render_data : RenderData) : M unit :=
  match s with
  | Cubemap self =>
      CubemapShader.render GVRF_USE_GLES3 self (model_matrix a) (mvp_matrix a) render_data
  | CubemapReflection self =>
      CubemapReflectionShader.render GVRF_USE_GLES3 self (mv_matrix a) (mv_it_matrix a)
        (view_invers_matrix a) (mvp_matrix a) render_data
  | OES self =>
      OESShader.render GVRF_USE_GLES3 self (mvp_matrix a) render_data
  | VerticalStereo self =>
      UnlitVerticalStereoShader.render GVRF_USE_GLES3 self (mvp_matrix a) render_data (right a)
  end.

(** The [program_] member. *)
Definition program_of (s : shader) : Z :=
  match s with
  | Cubemap self => CubemapShader.program_ self
  | CubemapReflection self => CubemapReflectionShader.program_ self
  | OES self => OESShader.program_ self
  | VerticalStereo self => UnlitVerticalStereoShader.program_ self
  end.

(** The location members, in declaration order. *)
Definition handles (s : shader) : list Z :=
  match s with
  | Cubemap self =>
      [ CubemapShader.a_position_ self; CubemapShader.u_model_ self;
        CubemapShader.u_mvp_ self; CubemapShader.u_texture_ self;
        CubemapShader.u_color_ self; CubemapShader.u_opacity_ self ]
  | CubemapReflection self =>
      [ CubemapReflectionShader.a_position_ self; CubemapReflectionShader.a_normal_ self;
        CubemapReflectionShader.u_mv_ self; CubemapReflectionShader.u_mv_it_ self;
        CubemapReflectionShader.u_mvp_ self; CubemapReflectionShader.u_view_i_ self;
        CubemapReflectionShader.u_texture_ self; CubemapReflectionShader.u_color_ self;
        CubemapReflectionShader.u_opacity_ self ]
  | OES self =>
      [ OESShader.a_position_ self; OESShader.a_tex_coord_ self; OESShader.u_mvp_ self;
        OESShader.u_texture_ self; OESShader.u_color_ self; OESShader.u_opacity_ self ]
  | VerticalStereo self =>
      [ UnlitVerticalStereoShader.a_position_ self; UnlitVerticalStereoShader.a_tex_coord_ self;
        UnlitVerticalStereoShader.u_mvp_ self; UnlitVerticalStereoShader.u_texture_ self;
        UnlitVerticalStereoShader.u_color_ self; UnlitVerticalStereoShader.u_opacity_ self;
        UnlitVerticalStereoShader.u_right_ self ]
  end.

(** The target each [render] compares the texture's target with. *)
Definition required_target (v : variant) : Z :=
  match v with
  | VCubemap => GL_TEXTURE_CUBE_MAP
  | VCubemapReflection => GL_TEXTURE_CUBE_MAP
  | VOES => GL_TEXTURE_EXTERNAL_OES
  | VVerticalStereo => GL_TEXTURE_2D
  end.

(** The string each [render] throws on a mismatch. *)
Definition wrong_target_error (v : variant) : string :=
  match v with
  | VCubemap => "CubemapShader::render : texture with wrong target"
  | VCubemapReflection => "CubemapReflectionShader::render : texture with wrong target"
  | VOES => "OESShader::render : texture with wrong target"
  | VVerticalStereo => "UnlitVerticalStereoShader::render : texture with wrong target"
  end.

(** The tag each [render] hands to [checkGlError]. *)
Definition check_tag (v : variant) : string :=
  match v with
  | VCubemap => "CubemapShader::render"
  | VCubemapReflection => "CubemapReflectionShader::render"
  | VOES => "OESShader::render"
  | VVerticalStereo => "UnlitShader::render"
  end.

(** The location queries each constructor makes on its program [i]. *)
Definition constructor_queries (v : variant) (i : Z) : list gl_call :=
  match v with
  | VCubemap =>
      [ GetAttribLocation i A_POSITION; GetUniformLocation i U_MODEL;
        GetUniformLocation i U_MVP; GetUniformLocation i U_TEXTURE;
        GetUniformLocation i U_COLOR; GetUniformLocation i U_OPACITY ]
  | VCubemapReflection =>
      [ GetAttribLocation i A_POSITION; GetAttribLocation i A_NORMAL;
        GetUniformLocation i U_MV; GetUniformLocation i U_MV_IT;
        GetUniformLocation i U_MVP; GetUniformLocation i U_VIEW_I;
        GetUniformLocation i U_TEXTURE; GetUniformLocation i U_COLOR;
        GetUniformLocation i U_OPACITY ]
  | VOES =>
      [ GetAttribLocation i A_POSITION; GetAttribLocation i A_TEX_COORD;
        GetUniformLocation i U_MVP; GetUniformLocation i U_TEXTURE;
        GetUniformLocation i U_COLOR; GetUniformLocation i U_OPACITY ]
  | VVerticalStereo =>
      [ GetAttribLocation i A_POSITION; GetAttribLocation i A_TEX_COORD;
        GetUniformLocation i U_MVP; GetUniformLocation i U_TEXTURE;
        GetUniformLocation i U_COLOR; GetUniformLocation i U_OPACITY;
        GetUniformLocation i U_RIGHT ]
  end.

(** ** Reading a trace *)

Fixpoint gl_calls (t : list event) : list gl_call :=
  match t with
  | [] => []
  | EvGL c :: t => c :: gl_calls t
  | _ :: t => gl_calls t
  end.

Fixpoint mesh_calls (t : list event) : list mesh_call :=
  match t with
  | [] => []
  | EvMesh c :: t => c :: mesh_calls t
  | _ :: t => mesh_calls t
  end.

Fixpoint reads (t : list event) : list read :=
  match t with
  | [] => []
  | EvRead r :: t => r :: reads t
  | _ :: t => reads t
  end.

Fixpoint deletes (t : list event) : list Z :=
  match t with
  | [] => []
  | EvDelete p :: t => p :: deletes t
  | _ :: t => deletes t
  end.

Definition is_draw (c : gl_call) : bool :=
  match c with DrawElements _ _ _ _ => true | _ => false end.

Definition is_location_query (c : gl_call) : bool :=
  match c with
  | GetAttribLocation _ _ | GetUniformLocation _ _ => true
  | _ => false
  end.

(** Does the call bind something at location or attribute index [h]? *)
Definition binds_at (h : Z) (c : gl_call) : bool :=
  match c with
  | VertexAttribPointer index _ _ _ _ _ => index =? h
  | EnableVertexAttribArray index => index =? h
  | UniformMatrix4fv location _ _ _ => location =? h
  | Uniform1i location _ => location =? h
  | Uniform3f location _ _ _ => location =? h
  | Uniform1f location _ => location =? h
  | _ => false
  end.

Definition draw_calls (t : list event) : list gl_call := List.filter is_draw (gl_calls t).
Definition location_queries (t : list event) : list gl_call :=
  List.filter is_location_query (gl_calls t).

(** The reads every [render] makes before it looks at the texture's target. *)
Definition reads_before_check : list read :=
  [ ReadMesh; ReadMaterial; GetTexture MAIN_TEXTURE; ReadMaterial; GetVec3 COLOR;
    ReadMaterial; GetFloat OPACITY ].

(** ** The binding state of the GL context

    What the calls of a trace do to the bindings a draw reads, following the
    OpenGL ES 2.0 specification: the [Uniform*] commands silently ignore
    location -1 (section 2.10.4), and a vertex attribute command whose index
    is not a valid attribute index, as -1 converted to [GLuint] never is,
    raises INVALID_VALUE and is otherwise ignored (sections 2.5 and 2.8).
    Error flags are not part of this state: they are what [gl_errors] holds. *)

Inductive uniform_value :=
| UMat4 (m : mat4)
| UInt (i : Z)
| UVec3 (a b c : R)
| UFloat (f : R).

Record GLContext := {
  current_program : Z;
  uniforms : gmap (Z * Z) uniform_value;        (* by program and location *)
  attrib_arrays : gmap Z (Z * Z * attrib_data); (* size, type, client memory *)
  attrib_enabled : gset Z;
  active_texture : Z;
  texture_bindings : gmap (Z * Z) Z;            (* by unit and target *)
  vertex_array : Z
}.

Definition set_uniform (location : Z) (v : uniform_value) (c : GLContext) : GLContext :=
  if location =? -1 then c
  else {| current_program := current_program c;
          uniforms := <[(current_program c, location) := v]> (uniforms c);
          attrib_arrays := attrib_arrays c; attrib_enabled := attrib_enabled c;
          active_texture := active_texture c; texture_bindings := texture_bindings c;
          vertex_array := vertex_array c |}.

Definition gl_apply (c : GLContext) (call : gl_call) : GLContext :=
  match call with
  | GetAttribLocation _ _ | GetUniformLocation _ _ => c
  | UseProgram program =>
      {| current_program := program; uniforms := uniforms c;
         attrib_arrays := attrib_arrays c; attrib_enabled := attrib_enabled c;
         active_texture := active_texture c; texture_bindings := texture_bindings c;
         vertex_array := vertex_array c |}
  | VertexAttribPointer index size type _ _ pointer =>
      if index <? 0 then c
      else {| current_program := current_program c; uniforms := uniforms c;
              attrib_arrays := <[index := (size, type, pointer)]> (attrib_arrays c);
              attrib_enabled := attrib_enabled c;
              active_texture := active_texture c; texture_bindings := texture_bindings c;
              vertex_array := vertex_array c |}
  | EnableVertexAttribArray index =>
      if index <? 0 then c
      else {| current_program := current_program c; uniforms := uniforms c;
              attrib_arrays := attrib_arrays c;
              attrib_enabled := {[index]} ∪ attrib_enabled c;
              active_texture := active_texture c; texture_bindings := texture_bindings c;
              vertex_array := vertex_array c |}
  | UniformMatrix4fv location _ _ value => set_uniform location (UMat4 value) c
  | Uniform1i location v0 => set_uniform location (UInt v0) c
  | Uniform3f location v0 v1 v2 => set_uniform location (UVec3 v0 v1 v2) c
  | Uniform1f location v0 => set_uniform location (UFloat v0) c
  | ActiveTexture texture =>
      {| current_program := current_program c; uniforms := uniforms c;
         attrib_arrays := attrib_arrays c; attrib_enabled := attrib_enabled c;
         active_texture := texture; texture_bindings := texture_bindings c;
         vertex_array := vertex_array c |}
  | BindTexture target texture =>
      {| current_program := current_program c; uniforms := uniforms c;
         attrib_arrays := attrib_arrays c; attrib_enabled := attrib_enabled c;
         active_texture := active_texture c;
         texture_bindings := <[(active_texture c, target) := texture]> (texture_bindings c);
         vertex_array := vertex_array c |}
  | BindVertexArray array =>
      {| current_program := current_program c; uniforms := uniforms c;
         attrib_arrays := attrib_arrays c; attrib_enabled := attrib_enabled c;
         active_texture := active_texture c; texture_bindings := texture_bindings c;
         vertex_array := array |}
  | DrawElements _ _ _ _ => c
  end.

Definition gl_run (c : GLContext) (calls : list gl_call) : GLContext :=
  fold_left gl_apply calls c.

(** The value an [int] uniform of a program has for a draw (0 until set). *)
Definition uniform_int (c : GLContext) (program location : Z) : Z :=
  match uniforms c !! (program, location) with
  | Some (UInt i) => i
  | _ => 0
  end.

(** Calls that make another program current, and calls that set a uniform. *)
Definition changes_program (c : gl_call) : bool :=
  match c with UseProgram _ => true | _ => false end.
Definition sets_uniform (c : gl_call) : bool :=
  match c with
  | UniformMatrix4fv _ _ _ _ | Uniform1i _ _ | Uniform3f _ _ _ _ | Uniform1f _ _ => true
  | _ => false
  end.

(** [last_upload location v calls]: in [calls], under one current program,
    [glUniform1i(location, v)] is the last uniform upload. *)
Inductive last_upload (location v : Z) : list gl_call -> Prop :=
| upload_here after :
    forallb (fun c => negb (sets_uniform c)) after = true ->
    last_upload location v (Uniform1i location v :: after)
| upload_later c calls :
    changes_program c = false ->
    last_upload location v calls ->
    last_upload location v (c :: calls).

(** ** A scene to run the member functions on

    The unit quad (4 vertices, 2 triangles, 6 indices) with a white, opaque
    material, and a world holding one live program at address 1. *)

Definition quad : Mesh :=
  {| vertices := [Vec3 0 0 0; Vec3 1 0 0; Vec3 1 1 0; Vec3 0 1 0];
     normals := [Vec3 0 0 1; Vec3 0 0 1; Vec3 0 0 1; Vec3 0 0 1];
     tex_coords := [Vec2 0 0; Vec2 1 0; Vec2 1 1; Vec2 0 1];
     triangles := [0; 1; 2; 0; 2; 3];
     getVAOId := 1 |}.

Definition white (target : Z) : Material :=
  {| getTexture := fun _ => Ok {| getTarget := target; getId := 7 |};
     getVec3 := fun _ => Ok (Vec3 1 1 1);
     getFloat := fun _ => Ok 1%R |}.

Definition scene (target : Z) : RenderData := {| mesh := quad; material := white target |}.

Definition args0 (right : bool) : render_args :=
  {| model_matrix := mat4_identity; mv_matrix := mat4_identity;
     mv_it_matrix := mat4_identity; view_invers_matrix := mat4_identity;
     mvp_matrix := mat4_identity; right := right |}.

(** A driver that finds every name but [u_color]. *)
Definition driver0 : Driver :=
  {| attrib_location := fun _ name => if String.eqb name A_POSITION then 0 else 1;
     uniform_location := fun _ name => if String.eqb name U_COLOR then -1 else 2;
     program_name := fun p => Ok (p + 2) |}.

Definition world0 : World :=
  {| trace := []; heap := ∅; next_ptr := 1%positive; driver := driver0;
     gl_errors := []; logged := [] |}.

(** [world0] after one [new GLProgram]. *)
Definition world1 : World :=
  {| trace := []; heap := {[ 1 := {| id := 3 |} ]}; next_ptr := 2%positive; driver := driver0;
     gl_errors := [0x0501]; logged := [] |}.

Definition stereo1 : UnlitVerticalStereoShader.t :=
  {| UnlitVerticalStereoShader.program_ := 1;
     UnlitVerticalStereoShader.a_position_ := 0;
     UnlitVerticalStereoShader.a_tex_coord_ := 1;
     UnlitVerticalStereoShader.u_mvp_ := 2;
     UnlitVerticalStereoShader.u_texture_ := 3;
     UnlitVerticalStereoShader.u_color_ := -1;
     UnlitVerticalStereoShader.u_opacity_ := 4;
     UnlitVerticalStereoShader.u_right_ := 5 |}.

Definition context0 : GLContext :=
  {| current_program := 0; uniforms := ∅; attrib_arrays := ∅; attrib_enabled := ∅;
     active_texture := GL_TEXTURE0; texture_bindings := ∅; vertex_array := 0 |}.

(** ** The properties, in the words of the specification *)

(** What a location query is answered with. *)
Definition location_answer (d : Driver) (c : gl_call) : Z :=
  match c with
  | GetAttribLocation program name => attrib_location d program name
  | GetUniformLocation program name => uniform_location d program name
  | _ => 0
  end.

(** "outColor = textureSample.rgb * materialColor.rgb * opacity,
    alpha = textureSample.a * opacity" *)
Definition unlit_color (sample : vec4) (color : vec3) (opacity : R) : vec4 :=
  Vec4 (r4 sample * r3 color * opacity) (g4 sample * g3 color * opacity)
       (b4 sample * b3 color * opacity) (a4 sample * opacity).

(** A matrix applied to a point ([w = 1]) and to a direction ([w = 0]). *)
Definition transform_point (m : mat4) (p : vec3) : vec3 := xyz (mul_mat4_vec4 m (vec4_of p 1)).
Definition transform_direction (m : mat4) (d : vec3) : vec3 := xyz (mul_mat4_vec4 m (vec4_of d 0)).

(** The view-space position reflected about the normalized view-space
    normal, as the reflection vertex stage computes it. *)
Definition reflected_position (u_mv u_mv_it : mat4) (a_position : vec4) (a_normal : vec3) : vec3 :=
  let p := mul_mat4_vec4 u_mv a_position in
  reflect (div3 (xyz p) (w4 p)) (normalize (transform_point u_mv_it a_normal)).

(** The texture coordinate of the reflection vertex stage as the claim words
    it: the reflected vector taken through the view-inverse matrix as a
    direction vector, z negated. *)
Definition reflection_as_direction (u_mv u_mv_it u_view_i : mat4)
    (a_position : vec4) (a_normal : vec3) : vec3 :=
  let d := transform_direction u_view_i (reflected_position u_mv u_mv_it a_position a_normal) in
  Vec3 (x3 d) (y3 d) (- z3 d).

(** A view-inverse matrix with a translation: the camera sits at (1, 0, 0). *)
Definition camera_at_1_0_0 : mat4 :=
  Mat4 (Vec4 1 0 0 0) (Vec4 0 1 0 0) (Vec4 0 0 1 0) (Vec4 1 0 0 1).

(** ** Observing a run of GL calls, one component at a time *)

(** The program that is current after [calls]. *)
Fixpoint program_after (p : Z) (calls : list gl_call) : Z :=
  match calls with
  | [] => p
  | UseProgram q :: calls => program_after q calls
  | _ :: calls => program_after p calls
  end.

(** The active texture unit after [calls]. *)
Fixpoint unit_after (u : Z) (calls : list gl_call) : Z :=
  match calls with
  | [] => u
  | ActiveTexture t :: calls => unit_after t calls
  | _ :: calls => unit_after u calls
  end.

(** The texture bindings after [calls], from unit [u] and bindings [b]. *)
Fixpoint textures_after (u : Z) (b : gmap (Z * Z) Z) (calls : list gl_call) : gmap (Z * Z) Z :=
  match calls with
  | [] => b
  | ActiveTexture t :: calls => textures_after t b calls
  | BindTexture target texture :: calls =>
      textures_after u (<[(u, target) := texture]> b) calls
  | _ :: calls => textures_after u b calls
  end.

(** The bound vertex array after [calls]. *)
Fixpoint vertex_array_after (a : Z) (calls : list gl_call) : Z :=
  match calls with
  | [] => a
  | BindVertexArray a' :: calls => vertex_array_after a' calls
  | _ :: calls => vertex_array_after a calls
  end.

(** The attribute arrays and the enabled attributes after [calls]. *)
Fixpoint attribs_after (m : gmap Z (Z * Z * attrib_data)) (calls : list gl_call)
    : gmap Z (Z * Z * attrib_data) :=
  match calls with
  | [] => m
  | VertexAttribPointer index size type _ _ pointer :: calls =>
      attribs_after (if index <? 0 then m else <[index := (size, type, pointer)]> m) calls
  | _ :: calls => attribs_after m calls
  end.

Fixpoint enabled_after (e : gset Z) (calls : list gl_call) : gset Z :=
  match calls with
  | [] => e
  | EnableVertexAttribArray index :: calls =>
      enabled_after (if index <? 0 then e else {[index]} ∪ e) calls
  | _ :: calls => enabled_after e calls
  end.

(** The location and value a uniform upload carries. *)
Definition upload_at (c : gl_call) : option (Z * uniform_value) :=
  match c with
  | UniformMatrix4fv location _ _ value => Some (location, UMat4 value)
  | Uniform1i location v0 => Some (location, UInt v0)
  | Uniform3f location v0 v1 v2 => Some (location, UVec3 v0 v1 v2)
  | Uniform1f location v0 => Some (location, UFloat v0)
  | _ => None
  end.

(** The value of the last upload at [location] among [calls], if any. *)
Fixpoint last_value (location : Z) (calls : list gl_call) : option uniform_value :=
  match calls with
  | [] => None
  | c :: calls =>
      match last_value location calls with
      | Some v => Some v
      | None =>
          match upload_at c with
          | Some (l, v) => if l =? location then Some v else None
          | None => None
          end
      end
  end.

(** The calls after the first draw call. *)
Fixpoint after_draw (calls : list gl_call) : list gl_call :=
  match calls with
  | [] => []
  | c :: calls => if is_draw c then calls else after_draw calls
  end.

(** Calls that supply vertex data: only these differ between the builds. *)
Definition supplies_vertices (c : gl_call) : bool :=
  match c with
  | VertexAttribPointer _ _ _ _ _ _ | EnableVertexAttribArray _ | BindVertexArray _
  | DrawElements _ _ _ _ => true
  | _ => false
  end.

(** Mode, count and index type of a draw call. *)
Definition draw_header (c : gl_call) : option (Z * Z * Z) :=
  match c with
  | DrawElements mode count type _ => Some (mode, count, type)
  | _ => None
  end.

(** ** What each variant means to upload, by GLSL name *)

Definition uniform_names (v : variant) : list string :=
  match v with
  | VCubemap => [U_MODEL; U_MVP; U_TEXTURE; U_COLOR; U_OPACITY]
  | VCubemapReflection => [U_MV; U_MV_IT; U_MVP; U_VIEW_I; U_TEXTURE; U_COLOR; U_OPACITY]
  | VOES => [U_MVP; U_TEXTURE; U_COLOR; U_OPACITY]
  | VVerticalStereo => [U_MVP; U_TEXTURE; U_COLOR; U_OPACITY; U_RIGHT]
  end.

Definition uniform_of_name (a : render_args) (color : vec3) (opacity : R) (name : string)
    : option uniform_value :=
  if String.eqb name U_MODEL then Some (UMat4 (model_matrix a))
  else if String.eqb name U_MV then Some (UMat4 (mv_matrix a))
  else if String.eqb name U_MV_IT then Some (UMat4 (mv_it_matrix a))
  else if String.eqb name U_MVP then Some (UMat4 (mvp_matrix a))
  else if String.eqb name U_VIEW_I then Some (UMat4 (view_invers_matrix a))
  else if String.eqb name U_TEXTURE then Some (UInt 0)
  else if String.eqb name U_COLOR then Some (UVec3 (r3 color) (g3 color) (b3 color))
  else if String.eqb name U_OPACITY then Some (UFloat opacity)
  else if String.eqb name U_RIGHT then Some (UInt (if right a then 1 else 0))
  else None.

(** No location is -1 and no two coincide. *)
Fixpoint distinct (ls : list Z) : bool :=
  match ls with
  | [] => true
  | l :: ls => negb (existsb (Z.eqb l) ls) && distinct ls
  end.
Definition found_and_distinct (ls : list Z) : bool :=
  forallb (fun l => negb (l =? -1)) ls && distinct ls.

(** The attribute handles of a variant. *)
Definition position_handle (s : shader) : Z :=
  match s with
  | Cubemap self => CubemapShader.a_position_ self
  | CubemapReflection self => CubemapReflectionShader.a_position_ self
  | OES self => OESShader.a_position_ self
  | VerticalStereo self => UnlitVerticalStereoShader.a_position_ self
  end.
Definition tex_coord_handle (s : shader) : option Z :=
  match s with
  | Cubemap _ | CubemapReflection _ => None
  | OES self => Some (OESShader.a_tex_coord_ self)
  | VerticalStereo self => Some (UnlitVerticalStereoShader.a_tex_coord_ self)
  end.

(** A driver that gives every name of gl_names.h its own location. *)
Fixpoint name_index (names : list string) (n : string) : Z :=
  match names with
  | [] => -1
  | m :: names => if String.eqb m n then 0 else
      match name_index names n with -1 => -1 | k => k + 1 end
  end.
Definition driver1 : Driver :=
  {| attrib_location := fun _ => name_index [A_POSITION; A_NORMAL; A_TEX_COORD];
     uniform_location := fun _ =>
       name_index [U_COLOR; U_FACTOR; U_MODEL; U_MV; U_MV_IT; U_MVP; U_OPACITY; U_RIGHT;
                   U_TEXTURE; U_VIEW_I];
     program_name := fun p => Ok (p + 2) |}.
Definition world2 : World :=
  {| trace := []; heap := ∅; next_ptr := 1%positive; driver := driver1;
     gl_errors := []; logged := [] |}.

(** A reflection variant holding the program of [world1]. *)
Definition reflection1 : CubemapReflectionShader.t :=
  {| CubemapReflectionShader.program_ := 1;
     CubemapReflectionShader.a_position_ := 0;
     CubemapReflectionShader.a_normal_ := 1;
     CubemapReflectionShader.u_mv_ := 2;
     CubemapReflectionShader.u_mv_it_ := 3;
     CubemapReflectionShader.u_mvp_ := 4;
     CubemapReflectionShader.u_view_i_ := 5;
     CubemapReflectionShader.u_texture_ := 6;
     CubemapReflectionShader.u_color_ := 7;
     CubemapReflectionShader.u_opacity_ := 8 |}.

(** The model matrix that doubles every length. *)
Definition doubling : mat4 :=
  Mat4 (Vec4 2 0 0 0) (Vec4 0 2 0 0) (Vec4 0 0 2 0) (Vec4 0 0 0 1).

(** [k * v] for a [vec4]. *)
Definition scale4 (k : R) (v : vec4) : vec4 :=
  Vec4 (k * x4 v) (k * y4 v) (k * z4 v) (k * w4 v).

(** ** The handles render passes to the GL, and the errors the GL raises for them *)

(** The location or attribute index a binding call names. *)
Definition binding_location (c : gl_call) : option Z :=
  match c with
  | VertexAttribPointer index _ _ _ _ _ => Some index
  | EnableVertexAttribArray index => Some index
  | UniformMatrix4fv location _ _ _ => Some location
  | Uniform1i location _ => Some location
  | Uniform3f location _ _ _ => Some location
  | Uniform1f location _ => Some location
  | _ => None
  end.

Fixpoint bound_locations (calls : list gl_call) : list Z :=
  match calls with
  | [] => []
  | c :: calls =>
      match binding_location c with
      | Some l => l :: bound_locations calls
      | None => bound_locations calls
      end
  end.

(** The uniform members of a variant, in the order render uploads them. *)
Definition uniform_handles (s : shader) : list Z :=
  match s with
  | Cubemap self =>
      [ CubemapShader.u_model_ self; CubemapShader.u_mvp_ self; CubemapShader.u_texture_ self;
        CubemapShader.u_color_ self; CubemapShader.u_opacity_ self ]
  | CubemapReflection self =>
      [ CubemapReflectionShader.u_mv_ self; CubemapReflectionShader.u_mv_it_ self;
        CubemapReflectionShader.u_mvp_ self; CubemapReflectionShader.u_view_i_ self;
        CubemapReflectionShader.u_texture_ self; CubemapReflectionShader.u_color_ self;
        CubemapReflectionShader.u_opacity_ self ]
  | OES self =>
      [ OESShader.u_mvp_ self; OESShader.u_texture_ self; OESShader.u_color_ self;
        OESShader.u_opacity_ self ]
  | VerticalStereo self =>
      [ UnlitVerticalStereoShader.u_mvp_ self; UnlitVerticalStereoShader.u_texture_ self;
        UnlitVerticalStereoShader.u_color_ self; UnlitVerticalStereoShader.u_opacity_ self;
        UnlitVerticalStereoShader.u_right_ self ]
  end.

(** The attribute members the fallback build binds itself: the position, and
    the texture coordinate where the variant has one. *)
Definition client_attribute_handles (s : shader) : list Z :=
  position_handle s :: match tex_coord_handle s with Some tc => [tc] | None => [] end.

(** An attribute index the GL refuses: [glVertexAttribPointer] and
    [glEnableVertexAttribArray] take a [GLuint] and raise INVALID_VALUE when
    it is not below MAX_VERTEX_ATTRIBS (OpenGL ES 2.0, section 2.8); the
    not-found answer -1, converted to [GLuint], never is. *)
Definition invalid_attribute_index (max_vertex_attribs index : Z) : bool :=
  (index <? 0) || (max_vertex_attribs <=? index).

(** The INVALID_VALUE errors the GL raises on a call for its attribute
    index.  A [Uniform*] command at location -1 raises nothing (section
    2.10.4).  Errors of other causes (a location that is not one of the
    program's, a texture of the wrong kind) are not listed here.  The
    [gl_errors] of a [World] is an oracle for what glGetError reports and is
    not computed from the calls; this function gives the part of it that the
    attribute indices of a call list account for. *)
Definition attribute_index_errors_of (max_vertex_attribs : Z) (c : gl_call) : list Z :=
  match c with
  | VertexAttribPointer index _ _ _ _ _ =>
      if invalid_attribute_index max_vertex_attribs index then [GL_INVALID_VALUE] else []
  | EnableVertexAttribArray index =>
      if invalid_attribute_index max_vertex_attribs index then [GL_INVALID_VALUE] else []
  | _ => []
  end.

Definition attribute_index_errors (max_vertex_attribs : Z) (calls : list gl_call) : list Z :=
  flat_map (attribute_index_errors_of max_vertex_attribs) calls.

(** An OES variant whose program has no [a_position]. *)
Definition oes_no_position : OESShader.t :=
  {| OESShader.program_ := 1; OESShader.a_position_ := -1; OESShader.a_tex_coord_ := 1;
     OESShader.u_mvp_ := 2; OESShader.u_texture_ := 3; OESShader.u_color_ := 4;
     OESShader.u_opacity_ := 5 |}.


(** * Proofs *)

(** ** Running a member function symbolically *)

Ltac unfold_classes :=
  unfold render, recycle, destroy, new,
    CubemapShader.render, CubemapReflectionShader.render, OESShader.render,
    UnlitVerticalStereoShader.render,
    CubemapShader.destroy, CubemapReflectionShader.destroy, OESShader.destroy,
    UnlitVerticalStereoShader.destroy,
    CubemapShader.recycle, CubemapReflectionShader.recycle, OESShader.recycle,
    UnlitVerticalStereoShader.recycle,
    CubemapShader.new, CubemapReflectionShader.new, OESShader.new,
    UnlitVerticalStereoShader.new.

Ltac unfold_ops :=
  unfold RenderData_mesh, RenderData_material, Material_getTexture, Material_getVec3,
    Material_getFloat, Mesh_call, glUseProgram, glVertexAttribPointer,
    glEnableVertexAttribArray, glUniformMatrix4fv, glActiveTexture, glBindTexture,
    glUniform1i, glUniform3f, glUniform1f, glBindVertexArray, glDrawElements, gl,
    glGetAttribLocation, glGetUniformLocation, new_GLProgram, delete_GLProgram,
    checkGlError, GLProgram_id, bind, emit, ret, throw, of_result.

(** Bring the trace of the final world to the form [trace w ++ [e1; ...; en]]. *)
Ltac flatten_trace :=
  cbn [trace with_trace with_heap with_errors with_next_ptr];
  rewrite <- ?app_assoc; cbn [app].

(** Use a fact about the inputs and keep evaluating. *)
Ltac step H := rewrite H; cbn.

(** Split on what the three material accessors answer; the goals where one
    of them throws are closed by [tac]. *)
Ltac split_on_reads rd tac :=
  destruct (getTexture (material rd) MAIN_TEXTURE) as [texture|e]; cbn; [|tac];
  destruct (getVec3 (material rd) COLOR) as [color|e]; cbn; [|tac];
  destruct (getFloat (material rd) OPACITY) as [opacity|e]; cbn; [|tac].

(** ** The GLSL stages *)

Section Stages.
Local Open Scope R_scope.

Lemma identity_mul (v : vec4) : mul_mat4_vec4 mat4_identity v = v.
Proof. destruct v; unfold mul_mat4_vec4; cbn; f_equal; ring. Qed.

Lemma transform_point_direction (m : mat4) (p : vec3) :
  transform_point m p = add3 (transform_direction m p) (xyz (col3 m)).
Proof.
  unfold transform_point, transform_direction, add3, mul_mat4_vec4, xyz, vec4_of; cbn.
  f_equal; ring.
Qed.

(** C4.  The cube-map vertex stage writes normalize((model * position).xyz)
    with the z component negated, whatever the position and matrices; with
    the identity as model matrix that is the normalized position itself with
    z negated. *)
Theorem C4_cubemap_direction (u_model u_mvp : mat4) (a_position : vec4) :
  let d := normalize (xyz (mul_mat4_vec4 u_model a_position)) in
  let naive := normalize (xyz a_position) in
  v_tex_coord (CubemapShader.VERTEX_SHADER u_model u_mvp a_position)
    = Vec3 (x3 d) (y3 d) (- z3 d)
  /\ v_tex_coord (CubemapShader.VERTEX_SHADER mat4_identity u_mvp a_position)
    = Vec3 (x3 naive) (y3 naive) (- z3 naive).
Proof.
  intros d naive; split.
  - reflexivity.
  - unfold CubemapShader.VERTEX_SHADER. rewrite identity_mul. reflexivity.
Qed.

(** C5, as amended.  The reflection vertex stage divides mv * position by its
    w, takes the normal through mv_it (with w = 1), reflects the position
    about the normalized normal, and takes the result through view_i as a
    point (w = 1): the texture coordinate is the direction image of the
    reflected vector plus the translation column of view_i, z negated. *)
Theorem C5_reflection_texcoord (u_mv u_mv_it u_mvp u_view_i : mat4)
    (a_position : vec4) (a_normal : vec3) :
  let p := mul_mat4_vec4 u_mv a_position in
  let position := div3 (xyz p) (w4 p) in
  let normal := xyz (mul_mat4_vec4 u_mv_it (vec4_of a_normal 1)) in
  let r := reflect position (normalize normal) in
  let d := transform_direction u_view_i r in
  let t := xyz (col3 u_view_i) in
  r = reflected_position u_mv u_mv_it a_position a_normal
  /\ v_tex_coord (CubemapReflectionShader.VERTEX_SHADER u_mv u_mv_it u_mvp u_view_i
                    a_position a_normal)
     = Vec3 (x3 d + x3 t) (y3 d + y3 t) (- (z3 d + z3 t)).
Proof.
  intros p position normal r d t. split; [reflexivity|].
  unfold CubemapReflectionShader.VERTEX_SHADER.
  fold p. fold position. fold normal. fold r. fold (transform_point u_view_i r).
  rewrite transform_point_direction. reflexivity.
Qed.

(** C5 as stated fails: with the camera at (1, 0, 0) the x component of
    the stage's texture coordinate is one more than the direction transform
    of the reflected vector gives. *)
Lemma C5_not_a_direction_transform :
  v_tex_coord (CubemapReflectionShader.VERTEX_SHADER mat4_identity mat4_identity mat4_identity
                 camera_at_1_0_0 (Vec4 0 0 1 1) (Vec3 0 0 1))
  <> reflection_as_direction mat4_identity mat4_identity camera_at_1_0_0
       (Vec4 0 0 1 1) (Vec3 0 0 1).
Proof.
  intros H. apply (f_equal x3) in H.
  unfold CubemapReflectionShader.VERTEX_SHADER, reflection_as_direction, reflected_position,
    transform_point, transform_direction in H.
  cbn [v_tex_coord set_z x3] in H.
  set (r := reflect _ _) in H.
  unfold mul_mat4_vec4, xyz, vec4_of, camera_at_1_0_0 in H.
  cbn [x3 y3 z3 x4 y4 z4 w4 col0 col1 col2 col3] in H.
  lra.
Qed.

(** C6.  In each of the four fragment stages the output is
    (sample.rgb * color.rgb * opacity, sample.a * opacity), where sample is
    what the sampler returns at the stage's coordinate; nothing else enters. *)
Theorem C6_fragment_output :
  (forall (u_texture : samplerCube) u_color u_opacity coord,
     CubemapShader.FRAGMENT_SHADER u_texture u_color u_opacity coord
     = unlit_color (u_texture coord) u_color u_opacity)
  /\ (forall (u_texture : samplerCube) u_color u_opacity coord,
     CubemapReflectionShader.FRAGMENT_SHADER u_texture u_color u_opacity coord
     = unlit_color (u_texture coord) u_color u_opacity)
  /\ (forall (u_texture : samplerExternalOES) u_color u_opacity coord,
     OESShader.FRAGMENT_SHADER u_texture u_color u_opacity coord
     = unlit_color (u_texture coord) u_color u_opacity)
  /\ (forall (u_texture : sampler2D) u_color u_opacity u_right coord,
     UnlitVerticalStereoShader.FRAGMENT_SHADER u_texture u_color u_opacity u_right coord
     = unlit_color (u_texture (UnlitVerticalStereoShader.tex_coord u_right coord))
         u_color u_opacity).
Proof.
  repeat split; intros; try reflexivity.
  destruct coord; reflexivity.
Qed.

End Stages.

(** ** The GL binding state *)

Lemma set_uniform_program l v c : current_program (set_uniform l v c) = current_program c.
Proof. unfold set_uniform. destruct (l =? -1); reflexivity. Qed.

Lemma gl_apply_keeps_program ctx c :
  changes_program c = false -> current_program (gl_apply ctx c) = current_program ctx.
Proof.
  destruct c; cbn; intros H; try discriminate; try reflexivity;
    try apply set_uniform_program; destruct (index <? 0); reflexivity.
Qed.

Lemma gl_apply_keeps_uniforms ctx c :
  sets_uniform c = false -> uniforms (gl_apply ctx c) = uniforms ctx.
Proof.
  destruct c; cbn; intros H; try discriminate; try reflexivity;
    destruct (index <? 0); reflexivity.
Qed.

(** A call that binds at -1 leaves the bindings as they were. *)
Lemma gl_apply_not_found ctx c : binds_at (-1) c = true -> gl_apply ctx c = ctx.
Proof.
  destruct c; cbn; intros H; try discriminate; apply Z.eqb_eq in H; subst; reflexivity.
Qed.

Lemma gl_run_cons ctx c calls : gl_run ctx (c :: calls) = gl_run (gl_apply ctx c) calls.
Proof. reflexivity. Qed.

Lemma gl_run_skips_not_found calls : forall ctx,
  gl_run ctx calls = gl_run ctx (List.filter (fun c => negb (binds_at (-1) c)) calls).
Proof.
  induction calls as [|c calls IH]; intros ctx; [reflexivity|].
  cbn [List.filter]. destruct (binds_at (-1) c) eqn:E; cbn [negb]; rewrite !gl_run_cons.
  - rewrite gl_apply_not_found by exact E. apply IH.
  - apply IH.
Qed.

Lemma gl_run_keeps_program calls : forall ctx,
  forallb (fun c => negb (changes_program c)) calls = true ->
  current_program (gl_run ctx calls) = current_program ctx.
Proof.
  induction calls as [|c calls IH]; intros ctx H; [reflexivity|].
  cbn in H. apply andb_prop in H as [Hc H]. apply negb_true_iff in Hc.
  rewrite gl_run_cons, IH by exact H. apply gl_apply_keeps_program, Hc.
Qed.

Lemma gl_run_keeps_uniforms calls : forall ctx,
  forallb (fun c => negb (sets_uniform c)) calls = true ->
  uniforms (gl_run ctx calls) = uniforms ctx.
Proof.
  induction calls as [|c calls IH]; intros ctx H; [reflexivity|].
  cbn in H. apply andb_prop in H as [Hc H]. apply negb_true_iff in Hc.
  rewrite gl_run_cons, IH by exact H. apply gl_apply_keeps_uniforms, Hc.
Qed.

Lemma uniform_int_last_upload location v calls :
  last_upload location v calls -> location <> -1 ->
  forall ctx, uniform_int (gl_run ctx calls) (current_program ctx) location = v.
Proof.
  intros H Hl. apply Z.eqb_neq in Hl.
  induction H as [after Ha|c calls Hc _ IH]; intros ctx; rewrite gl_run_cons.
  - unfold uniform_int. rewrite gl_run_keeps_uniforms by exact Ha.
    cbn [gl_apply]. unfold set_uniform. rewrite Hl. cbn [uniforms].
    rewrite lookup_insert_eq. reflexivity.
  - rewrite <- (gl_apply_keeps_program ctx c Hc). apply IH.
Qed.

Lemma uniform_int_after_use ctx program location v calls :
  last_upload location v calls -> location <> -1 ->
  uniform_int (gl_run ctx (UseProgram program :: calls)) program location = v.
Proof.
  intros H Hl. rewrite gl_run_cons.
  apply (uniform_int_last_upload _ _ _ H Hl (gl_apply ctx (UseProgram program))).
Qed.

(** ** render, recycle and the destructor *)

(** The end-to-end scenario of the specification: the unit quad, a white
    opaque material with a 2D texture, the stereo variant, left eye. *)
Example stereo_quad_calls :
  gl_calls (trace (snd (render false (VerticalStereo stereo1) (args0 false)
                          (scene GL_TEXTURE_2D) world1)))
  = [ UseProgram 3;
      VertexAttribPointer 0 3 GL_FLOAT GL_FALSE 0 (Floats3 (vertices quad));
      EnableVertexAttribArray 0;
      VertexAttribPointer 1 2 GL_FLOAT GL_FALSE 0 (Floats2 (tex_coords quad));
      EnableVertexAttribArray 1;
      UniformMatrix4fv 2 1 GL_FALSE mat4_identity;
      ActiveTexture GL_TEXTURE0;
      BindTexture GL_TEXTURE_2D 7;
      Uniform1i 3 0;
      Uniform3f (-1) 1 1 1;
      Uniform1f 4 1;
      Uniform1i 5 0;
      DrawElements GL_TRIANGLES 6 GL_UNSIGNED_SHORT (ClientIndices [0; 1; 2; 0; 2; 3]) ].
Proof. reflexivity. Qed.

Example stereo_quad_wrong_target :
  render true (VerticalStereo stereo1) (args0 true) (scene GL_TEXTURE_EXTERNAL_OES) world1
  = (Throw "UnlitVerticalStereoShader::render : texture with wrong target",
     with_trace (map EvRead reads_before_check) world1).
Proof. reflexivity. Qed.

Example constructed_then_recycled_twice :
  (s <- new VOES ;; s <- recycle s ;; s <- recycle s ;; destroy s)%cpp world0
  = (Return (OES {| OESShader.program_ := 0; OESShader.a_position_ := 0;
                    OESShader.a_tex_coord_ := 1; OESShader.u_mvp_ := 2;
                    OESShader.u_texture_ := 2; OESShader.u_color_ := -1;
                    OESShader.u_opacity_ := 2 |}),
     {| trace := EvNew 1 :: map EvGL (constructor_queries VOES 3) ++ [EvDelete 1];
        heap := delete 1 (<[1 := {| id := 3 |}]> ∅); next_ptr := 2%positive;
        driver := driver0; gl_errors := []; logged := [] |}).
Proof. reflexivity. Qed.

(** C1.  In every variant and either build, when the material yields its
    texture, colour and opacity and the texture's target is not the one the
    variant requires, render throws the variant's wrong-target string having
    made no GL call and no mesh call; the heap and the pending GL errors are
    untouched. *)
Theorem C1_wrong_target_issues_no_gpu_command
    (GVRF_USE_GLES3 : bool) (s : shader) (a : render_args) (rd : RenderData) (w : World)
    (texture : Texture) (color : vec3) (opacity : R) :
  getTexture (material rd) MAIN_TEXTURE = Ok texture ->
  getVec3 (material rd) COLOR = Ok color ->
  getFloat (material rd) OPACITY = Ok opacity ->
  getTarget texture <> required_target (variant_of s) ->
  exists w' t,
    render GVRF_USE_GLES3 s a rd w = (Throw (wrong_target_error (variant_of s)), w')
    /\ trace w' = trace w ++ t
    /\ gl_calls t = [] /\ mesh_calls t = []
    /\ heap w' = heap w /\ gl_errors w' = gl_errors w.
Proof.
  intros Ht Hc Ho Hne. apply Z.eqb_neq in Hne.
  destruct s; unfold_classes; unfold_ops; cbn in *;
    step Ht; step Hc; step Ho; step Hne;
    (eexists; eexists; split; [reflexivity|]); flatten_trace;
    (split; [reflexivity|]); cbn; auto.
Qed.

Lemma C1_cube_map_handed_to_stereo :
  exists w' t,
    render false (VerticalStereo stereo1) (args0 false) (scene GL_TEXTURE_CUBE_MAP) world1
    = (Throw (wrong_target_error VVerticalStereo), w')
    /\ trace w' = trace world1 ++ t
    /\ gl_calls t = [] /\ mesh_calls t = []
    /\ heap w' = heap world1 /\ gl_errors w' = gl_errors world1.
Proof.
  apply (C1_wrong_target_issues_no_gpu_command false (VerticalStereo stereo1) (args0 false)
           (scene GL_TEXTURE_CUBE_MAP) world1
           {| getTarget := GL_TEXTURE_CUBE_MAP; getId := 7 |} (Vec3 1 1 1) 1%R);
    [reflexivity | reflexivity | reflexivity | discriminate].
Defined.






(** C7.  For every variant holding a live program: recycle returns, deletes
    that program (one delete event) and leaves the program member null; a
    second recycle, and likewise the destructor, then returns without
    changing the object or the world, so nothing is released twice. *)
Theorem C7_recycle_releases_once (s : shader) (w : World) (program : GLProgram) :
  program_of s <> 0 ->
  heap w !! program_of s = Some program ->
  exists s1 w1,
    recycle s w = (Return s1, w1)
    /\ program_of s1 = 0
    /\ trace w1 = trace w ++ [EvDelete (program_of s)]
    /\ heap w1 = delete (program_of s) (heap w)
    /\ recycle s1 w1 = (Return s1, w1)
    /\ destroy s1 w1 = (Return s1, w1).
Proof.
  intros Hnz Hp. apply Z.eqb_neq in Hnz.
  destruct s; unfold_classes; unfold_ops; cbn in *; step Hnz; step Hp.
  all: do 2 eexists; split; [reflexivity|]; cbn.
  all: repeat (split; [reflexivity|]); reflexivity.
Qed.

Lemma C7_stereo_recycled_twice :
  exists s1 w1,
    recycle (VerticalStereo stereo1) world1 = (Return s1, w1)
    /\ program_of s1 = 0
    /\ trace w1 = trace world1 ++ [EvDelete 1]
    /\ heap w1 = delete 1 (heap world1)
    /\ recycle s1 w1 = (Return s1, w1)
    /\ destroy s1 w1 = (Return s1, w1).
Proof.
  apply (C7_recycle_releases_once (VerticalStereo stereo1) world1 {| id := 3 |});
    [discriminate | reflexivity].
Defined.

(** C8.  In every variant and either build, for a call that passes the
    target check with a live program: whatever error codes are pending when
    the GPU-error check runs, render returns normally, the codes are logged
    under the variant's tag and drained, and the calls made and the heap are
    those of a run with no error pending. *)
Theorem C8_gl_errors_are_logged_not_raised
    (GVRF_USE_GLES3 : bool) (s : shader) (a : render_args) (rd : RenderData) (w : World)
    (texture : Texture) (color : vec3) (opacity : R) (program : GLProgram) :
  getTexture (material rd) MAIN_TEXTURE = Ok texture ->
  getVec3 (material rd) COLOR = Ok color ->
  getFloat (material rd) OPACITY = Ok opacity ->
  getTarget texture = required_target (variant_of s) ->
  heap w !! program_of s = Some program ->
  forall pending : list Z,
  exists w',
    render GVRF_USE_GLES3 s a rd (with_errors pending (logged w) w) = (Return tt, w')
    /\ logged w' = logged w ++ map (fun e => (check_tag (variant_of s), e)) pending
    /\ gl_errors w' = []
    /\ trace w' = trace (snd (render GVRF_USE_GLES3 s a rd (with_errors [] (logged w) w)))
    /\ heap w' = heap w.
Proof.
  intros Ht Hc Ho Htg Hp pending.
  destruct s, GVRF_USE_GLES3; unfold_classes; unfold_ops; cbn in *;
    step Ht; step Hc; step Ho; step Htg; step Hp;
    (eexists; split; [reflexivity|]); cbn; auto.
Qed.

Lemma C8_two_pending_errors_logged :
  exists w',
    render false (VerticalStereo stereo1) (args0 true) (scene GL_TEXTURE_2D)
      (with_errors [0x0501; 0x0502] [] world1) = (Return tt, w')
    /\ logged w' = [("UnlitShader::render"%string, 0x0501); ("UnlitShader::render"%string, 0x0502)]
    /\ gl_errors w' = []
    /\ trace w' = trace (snd (render false (VerticalStereo stereo1) (args0 true)
                                (scene GL_TEXTURE_2D) (with_errors [] [] world1)))
    /\ heap w' = heap world1.
Proof.
  apply (C8_gl_errors_are_logged_not_raised false (VerticalStereo stereo1) (args0 true)
           (scene GL_TEXTURE_2D) world1
           {| getTarget := GL_TEXTURE_2D; getId := 7 |} (Vec3 1 1 1) 1%R {| id := 3 |}
           eq_refl eq_refl eq_refl eq_refl eq_refl [0x0501; 0x0502]).
Defined.

(** C10.  In every variant and either build, render first reads the mesh
    reference and calls getTexture(MAIN_TEXTURE), getVec3(COLOR) and
    getFloat(OPACITY), in that order, and only then compares the texture's
    target: an accessor that throws ends render with that exception after
    the reads made so far, and a call that ends with the wrong-target string
    has made all of them and nothing else. *)
Theorem C10_reads_precede_the_target_check
    (GVRF_USE_GLES3 : bool) (s : shader) (a : render_args) (rd : RenderData) (w : World) :
  exists o w' t,
    render GVRF_USE_GLES3 s a rd w = (o, w') /\ trace w' = trace w ++ t /\
    match getTexture (material rd) MAIN_TEXTURE with
    | Thrown e =>
        o = Throw e /\ t = map EvRead [ReadMesh; ReadMaterial; GetTexture MAIN_TEXTURE]
    | Ok texture =>
        match getVec3 (material rd) COLOR with
        | Thrown e =>
            o = Throw e /\
            t = map EvRead [ReadMesh; ReadMaterial; GetTexture MAIN_TEXTURE;
                            ReadMaterial; GetVec3 COLOR]
        | Ok _ =>
            match getFloat (material rd) OPACITY with
            | Thrown e => o = Throw e /\ t = map EvRead reads_before_check
            | Ok _ =>
                exists rest, t = map EvRead reads_before_check ++ rest /\
                  if getTarget texture =? required_target (variant_of s) then True
                  else o = Throw (wrong_target_error (variant_of s)) /\ rest = []
            end
        end
    end.
Proof.
  destruct s; unfold_classes; unfold_ops; cbn.
  all: split_on_reads rd
         ltac:(do 3 eexists; split; [reflexivity|]; flatten_trace;
               split; [reflexivity|]; split; reflexivity).
  all: destruct (getTarget texture =? _); cbn;
    [|do 3 eexists; split; [reflexivity|]; flatten_trace; split; [reflexivity|];
      exists []; split; [reflexivity|]; split; reflexivity].
  all: destruct GVRF_USE_GLES3; cbn.
  all: destruct (heap w !! _) as [program|]; cbn.
  all: do 3 eexists; split; [reflexivity|]; flatten_trace; split; [reflexivity|];
       eexists; split; [reflexivity|exact I].
Qed.

(** C9, as amended.  (1) Each constructor whose program is built queries the
    location of each of its attribute and uniform names exactly once, on its
    own program, and stores the answers in its handle members.  (2)-(4)
    render, recycle and the destructor make no location query, and the latter
    two leave the handle members as they were (render has no access to change
    them).  (5) render has no guard for a handle of -1: a call that passes
    the target check returns normally whatever the handle values, and the
    locations its binding calls name are exactly its handle members, each
    handed to the GL as it is: in the fallback build the position and
    texture-coordinate attributes twice each (pointer, then enable), then the
    uniforms; with vertex array objects the uniforms only.  The GL bindings
    the call leaves are those of the same calls without the ones that bind at
    -1; and the GL raises INVALID_VALUE twice for each attribute handle so
    passed that is not a valid attribute index, as -1 is not, and for no
    other call. *)
Theorem C9_handles_resolved_once_and_passed_on_unguarded :
  (forall (v : variant) (w : World) (i : Z),
     let p := Z.pos (next_ptr w) in
     program_name (driver w) p = Ok i ->
     exists s w',
       new v w = (Return s, w')
       /\ trace w' = trace w ++ EvNew p :: map EvGL (constructor_queries v i)
       /\ handles s = map (location_answer (driver w)) (constructor_queries v i)
       /\ NoDup (constructor_queries v i))
  /\ (forall GVRF_USE_GLES3 s a rd w,
        exists o w' t, render GVRF_USE_GLES3 s a rd w = (o, w')
          /\ trace w' = trace w ++ t /\ location_queries t = [])
  /\ (forall s w,
        exists o w' t, recycle s w = (o, w')
          /\ trace w' = trace w ++ t /\ location_queries t = []
          /\ forall s', o = Return s' -> handles s' = handles s)
  /\ (forall s w,
        exists o w' t, destroy s w = (o, w')
          /\ trace w' = trace w ++ t /\ location_queries t = []
          /\ forall s', o = Return s' -> handles s' = handles s)
  /\ (forall GVRF_USE_GLES3 s a rd w texture color opacity program max_vertex_attribs,
        getTexture (material rd) MAIN_TEXTURE = Ok texture ->
        getVec3 (material rd) COLOR = Ok color ->
        getFloat (material rd) OPACITY = Ok opacity ->
        getTarget texture = required_target (variant_of s) ->
        heap w !! program_of s = Some program ->
        exists w' t, render GVRF_USE_GLES3 s a rd w = (Return tt, w')
          /\ trace w' = trace w ++ t
          /\ bound_locations (gl_calls t)
             = (if GVRF_USE_GLES3 then []
                else flat_map (fun h => [h; h]) (client_attribute_handles s))
               ++ uniform_handles s
          /\ (forall ctx, gl_run ctx (gl_calls t)
                = gl_run ctx (List.filter (fun c => negb (binds_at (-1) c)) (gl_calls t)))
          /\ attribute_index_errors max_vertex_attribs (gl_calls t)
             = if GVRF_USE_GLES3 then []
               else flat_map
                      (fun h => if invalid_attribute_index max_vertex_attribs h
                                then [GL_INVALID_VALUE; GL_INVALID_VALUE] else [])
                      (client_attribute_handles s)).
Proof.
  split; [|split; [|split; [|split]]].
  - intros v w i p Hi. subst p.
    destruct v; unfold_classes; unfold_ops; cbn; step Hi;
      repeat (rewrite lookup_insert_eq; cbn);
      (do 2 eexists; split; [reflexivity|]); flatten_trace;
      (split; [reflexivity|]); (split; [reflexivity|]).
    all: unfold A_POSITION, A_NORMAL, A_TEX_COORD, U_MODEL, U_MV, U_MV_IT, U_MVP, U_VIEW_I,
           U_TEXTURE, U_COLOR, U_OPACITY, U_RIGHT.
    all: repeat (apply NoDup_cons; split;
                 [rewrite ?elem_of_cons, elem_of_nil; intuition discriminate|]).
    all: apply NoDup_nil_2.
  - intros GVRF_USE_GLES3 s a rd w.
    destruct s; unfold_classes; unfold_ops; cbn.
    all: split_on_reads rd
           ltac:(do 3 eexists; split; [reflexivity|]; flatten_trace; split; reflexivity).
    all: destruct (getTarget texture =? _); cbn;
      [|do 3 eexists; split; [reflexivity|]; flatten_trace; split; reflexivity].
    all: destruct GVRF_USE_GLES3; cbn.
    all: destruct (heap w !! _) as [program|]; cbn.
    all: do 3 eexists; split; [reflexivity|]; flatten_trace; split; reflexivity.
  - intros s w.
    destruct s; unfold_classes; unfold_ops; cbn.
    all: match goal with |- context [?x =? 0] => destruct (x =? 0) end; cbn;
      [|destruct (heap w !! _); cbn].
    all: do 3 eexists; split; [reflexivity|]; flatten_trace;
      split; [first [reflexivity | symmetry; apply app_nil_r]|]; split; [reflexivity|].
    all: intros s' H; inversion H; reflexivity.
  - intros s w.
    destruct s; unfold_classes; unfold_ops; cbn.
    all: match goal with |- context [?x =? 0] => destruct (x =? 0) end; cbn;
      [|destruct (heap w !! _); cbn].
    all: do 3 eexists; split; [reflexivity|]; flatten_trace;
      split; [first [reflexivity | symmetry; apply app_nil_r]|]; split; [reflexivity|].
    all: intros s' H; inversion H; reflexivity.
  - intros GVRF_USE_GLES3 s a rd w texture color opacity program max_vertex_attribs
      Ht Hc Ho Htg Hp.
    destruct s, GVRF_USE_GLES3; unfold_classes; unfold_ops; cbn in *;
      step Ht; step Hc; step Ho; step Htg; step Hp;
      (do 2 eexists; split; [reflexivity|]); flatten_trace;
      (split; [reflexivity|]); (split; [reflexivity|]);
      (split; [intros ctx; apply gl_run_skips_not_found|]).
    all: unfold attribute_index_errors; cbn.
    all: repeat match goal with
                | |- context [invalid_attribute_index ?m ?h] =>
                    destruct (invalid_attribute_index m h)
                end; reflexivity.
Qed.

(** A stereo variant built where the GL finds no [u_color]: the handle is -1,
    render passes it on with the others, and no attribute index is refused. *)
Lemma C9_colour_not_found :
  (exists s w',
     new VVerticalStereo world0 = (Return s, w')
     /\ trace w' = trace world0 ++ EvNew 1 :: map EvGL (constructor_queries VVerticalStereo 3)
     /\ handles s = [0; 1; 2; 2; -1; 2; 2]
     /\ NoDup (constructor_queries VVerticalStereo 3))
  /\ (exists w' t,
       render false (VerticalStereo stereo1) (args0 false) (scene GL_TEXTURE_2D) world1
       = (Return tt, w')
       /\ trace w' = trace world1 ++ t
       /\ bound_locations (gl_calls t) = [0; 0; 1; 1; 2; 3; -1; 4; 5]
       /\ (forall ctx, gl_run ctx (gl_calls t)
             = gl_run ctx (List.filter (fun c => negb (binds_at (-1) c)) (gl_calls t)))
       /\ attribute_index_errors 16 (gl_calls t) = []).
Proof.
  split.
  - apply (proj1 C9_handles_resolved_once_and_passed_on_unguarded VVerticalStereo world0 3).
    reflexivity.
  - apply (proj2 (proj2 (proj2 (proj2 C9_handles_resolved_once_and_passed_on_unguarded)))
             false (VerticalStereo stereo1) (args0 false) (scene GL_TEXTURE_2D) world1
             {| getTarget := GL_TEXTURE_2D; getId := 7 |} (Vec3 1 1 1) 1%R {| id := 3 |} 16);
      reflexivity.
Defined.

(** C9 as stated fails: render does not treat -1 as "do not bind".  For an OES
    variant whose position handle is -1, the fallback build calls
    glVertexAttribPointer and glEnableVertexAttribArray at -1; the GL raises
    INVALID_VALUE for both, which the same calls without the two at -1 would
    not, so the binding at -1 is not without effect. *)
Lemma C9_position_not_found_is_bound_and_refused :
  exists w' t,
    render false (OES oes_no_position) (args0 false) (scene GL_TEXTURE_EXTERNAL_OES) world1
    = (Return tt, w')
    /\ trace w' = trace world1 ++ t
    /\ In (VertexAttribPointer (-1) 3 GL_FLOAT GL_FALSE 0 (Floats3 (vertices quad))) (gl_calls t)
    /\ In (EnableVertexAttribArray (-1)) (gl_calls t)
    /\ attribute_index_errors 16 (gl_calls t) = [GL_INVALID_VALUE; GL_INVALID_VALUE]
    /\ attribute_index_errors 16
         (List.filter (fun c => negb (binds_at (-1) c)) (gl_calls t)) = [].
Proof.
  unfold_classes; unfold_ops; cbn.
  do 2 eexists. split; [reflexivity|]. flatten_trace.
  split; [reflexivity|].
  split; [cbn; tauto|]. split; [cbn; tauto|]. split; reflexivity.
Qed.

(** ** The stereo split *)

Section Stereo.
Local Open Scope R_scope.

(** C3.  When the stereo variant renders (target check passed, program live,
    u_right found), the u_right uniform the fragment stage then reads is 1
    for right = true and 0 for right = false; the stage samples at
    (x, 0.5 * (y + right)); and as v ranges over [0, 1] the sampled v ranges
    over exactly [0, 0.5] for right = false and [0.5, 1] for right = true. *)
Theorem C3_stereo_halves
    (GVRF_USE_GLES3 : bool) (self : UnlitVerticalStereoShader.t) (mvp_matrix : mat4)
    (rd : RenderData) (right : bool) (w : World)
    (texture : Texture) (color : vec3) (opacity : R) (program : GLProgram) :
  getTexture (material rd) MAIN_TEXTURE = Ok texture ->
  getVec3 (material rd) COLOR = Ok color ->
  getFloat (material rd) OPACITY = Ok opacity ->
  getTarget texture = GL_TEXTURE_2D ->
  heap w !! UnlitVerticalStereoShader.program_ self = Some program ->
  UnlitVerticalStereoShader.u_right_ self <> (-1)%Z ->
  exists w' t,
    UnlitVerticalStereoShader.render GVRF_USE_GLES3 self mvp_matrix rd right w = (Return tt, w')
    /\ trace w' = trace w ++ t
    /\ forall ctx : GLContext,
       let u_right :=
         uniform_int (gl_run ctx (gl_calls t)) (id program)
           (UnlitVerticalStereoShader.u_right_ self) in
       let sampled_v v := y2 (UnlitVerticalStereoShader.tex_coord u_right (Vec2 0 v)) in
       u_right = (if right then 1 else 0)%Z
       /\ (forall (u_texture : sampler2D) u_color u_opacity coord,
             UnlitVerticalStereoShader.FRAGMENT_SHADER u_texture u_color u_opacity u_right coord
             = unlit_color
                 (u_texture (Vec2 (x2 coord) (0.5 * (y2 coord + (if right then 1 else 0)))))
                 u_color u_opacity)
       /\ (forall v, 0 <= v <= 1 ->
             if right then 0.5 <= sampled_v v <= 1.0 else 0 <= sampled_v v <= 0.5)
       /\ (forall v', (if right then 0.5 <= v' <= 1.0 else 0 <= v' <= 0.5) ->
             exists v, 0 <= v <= 1 /\ sampled_v v = v').
Proof.
  intros Ht Hc Ho Htg Hp Hr.
  destruct GVRF_USE_GLES3; unfold UnlitVerticalStereoShader.render; unfold_ops; cbn in *;
    step Ht; step Hc; step Ho; step Htg; step Hp;
    (do 2 eexists; split; [reflexivity|]); flatten_trace;
    (split; [reflexivity|]); intros ctx; cbn [gl_calls].
  all: set (u := uniform_int _ _ _);
    assert (Hu : u = (if right then 1 else 0)%Z)
      by (subst u; apply uniform_int_after_use;
          [repeat first [apply upload_here; reflexivity
                        | apply upload_later; [reflexivity|]]
          | exact Hr]);
    clearbody u; subst u.
  all: split; [reflexivity|]; split; [intros; destruct right; reflexivity|].
  all: unfold UnlitVerticalStereoShader.tex_coord, float; cbn [y2].
  all: destruct right; split.
  all: try (intros v Hv; lra).
  - intros v' Hv. exists (2 * v' - 1). split; lra.
  - intros v' Hv. exists (2 * v'). split; lra.
  - intros v' Hv. exists (2 * v' - 1). split; lra.
  - intros v' Hv. exists (2 * v'). split; lra.
Qed.

Lemma C3_right_eye_of_the_quad :
  exists w' t,
    UnlitVerticalStereoShader.render false stereo1 mat4_identity (scene GL_TEXTURE_2D) true world1
    = (Return tt, w')
    /\ trace w' = trace world1 ++ t
    /\ forall ctx : GLContext,
       let u_right := uniform_int (gl_run ctx (gl_calls t)) 3 5 in
       let sampled_v v := y2 (UnlitVerticalStereoShader.tex_coord u_right (Vec2 0 v)) in
       u_right = 1%Z
       /\ (forall (u_texture : sampler2D) u_color u_opacity coord,
             UnlitVerticalStereoShader.FRAGMENT_SHADER u_texture u_color u_opacity u_right coord
             = unlit_color (u_texture (Vec2 (x2 coord) (0.5 * (y2 coord + 1))))
                 u_color u_opacity)
       /\ (forall v, 0 <= v <= 1 -> 0.5 <= sampled_v v <= 1.0)
       /\ (forall v', 0.5 <= v' <= 1.0 -> exists v, 0 <= v <= 1 /\ sampled_v v = v').
Proof.
  apply (C3_stereo_halves false stereo1 mat4_identity (scene GL_TEXTURE_2D) true world1
           {| getTarget := GL_TEXTURE_2D; getId := 7 |} (Vec3 1 1 1) 1 {| id := 3 |});
    [reflexivity | reflexivity | reflexivity | reflexivity | reflexivity | discriminate].
Defined.

End Stereo.

(** * Further properties of the four classes *)

(** ** The vertex and fragment stages *)

Section MoreStages.
Local Open Scope R_scope.

Lemma dot_self_nonneg (v : vec3) : 0 <= dot v v.
Proof. unfold dot. nra. Qed.

Lemma dot_self_zero (v : vec3) : dot v v = 0 -> v = Vec3 0 0 0.
Proof.
  destruct v as [x y z]; unfold dot; cbn. intros H.
  assert (x = 0) by nra. assert (y = 0) by nra. assert (z = 0) by nra. subst. reflexivity.
Qed.

Lemma length3_pos (v : vec3) : v <> Vec3 0 0 0 -> 0 < length3 v.
Proof.
  intros Hv. unfold length3. apply sqrt_lt_R0.
  destruct (Rle_lt_or_eq_dec _ _ (dot_self_nonneg v)) as [H|H]; [exact H|].
  exfalso. apply Hv, dot_self_zero. symmetry. exact H.
Qed.

Lemma length3_sqr (v : vec3) : length3 v * length3 v = dot v v.
Proof. unfold length3. apply sqrt_sqrt, dot_self_nonneg. Qed.

Lemma normalize_unit (v : vec3) : v <> Vec3 0 0 0 -> dot (normalize v) (normalize v) = 1.
Proof.
  intros Hv. pose proof (length3_pos v Hv) as Hl. pose proof (length3_sqr v) as Hs.
  unfold normalize, div3, dot in *. cbn [x3 y3 z3] in *.
  set (l := length3 v) in *.
  replace (x3 v / l * (x3 v / l) + y3 v / l * (y3 v / l) + z3 v / l * (z3 v / l))
    with ((x3 v * x3 v + y3 v * y3 v + z3 v * z3 v) / (l * l)) by (field; lra).
  rewrite <- Hs. field. lra.
Qed.

Lemma length3_scale (k : R) (v : vec3) : 0 <= k -> length3 (scale3 k v) = k * length3 v.
Proof.
  intros Hk. unfold length3.
  replace (dot (scale3 k v) (scale3 k v)) with (k * k * dot v v)
    by (unfold dot, scale3; cbn; ring).
  rewrite sqrt_mult_alt by nra. rewrite sqrt_square by exact Hk. reflexivity.
Qed.

Lemma normalize_scale (k : R) (v : vec3) : 0 < k -> normalize (scale3 k v) = normalize v.
Proof.
  intros Hk. unfold normalize. rewrite length3_scale by lra.
  destruct (Req_dec (length3 v) 0) as [H0|H0].
  - assert (v = Vec3 0 0 0) as ->.
    { apply dot_self_zero. rewrite <- length3_sqr, H0. ring. }
    unfold div3, scale3; cbn. f_equal; unfold Rdiv; ring.
  - unfold div3, scale3; cbn. f_equal; field; split; lra.
Qed.

Lemma mul_mat4_scale4 (m : mat4) (k : R) (v : vec4) :
  mul_mat4_vec4 m (scale4 k v) = scale4 k (mul_mat4_vec4 m v).
Proof. unfold mul_mat4_vec4, scale4; cbn. f_equal; ring. Qed.

(** X11.  Whenever model * position has a non-zero xyz part, the cube-map
    stage hands the sampler a vector of length 1. *)
Theorem X11_cubemap_direction_is_unit (u_model u_mvp : mat4) (a_position : vec4) :
  xyz (mul_mat4_vec4 u_model a_position) <> Vec3 0 0 0 ->
  length3 (v_tex_coord (CubemapShader.VERTEX_SHADER u_model u_mvp a_position)) = 1.
Proof.
  intros Hv. unfold CubemapShader.VERTEX_SHADER; cbn [v_tex_coord].
  set (n := normalize _). unfold length3.
  replace (dot (set_z n (- z3 n)) (set_z n (- z3 n))) with (dot n n)
    by (unfold dot, set_z; cbn; ring).
  subst n. rewrite normalize_unit by exact Hv. apply sqrt_1.
Qed.

Lemma X11_unit_along_z :
  length3 (v_tex_coord (CubemapShader.VERTEX_SHADER mat4_identity mat4_identity (Vec4 0 0 3 1)))
  = 1.
Proof.
  apply (X11_cubemap_direction_is_unit mat4_identity mat4_identity (Vec4 0 0 3 1)).
  intros H. apply (f_equal z3) in H. cbn in H. lra.
Defined.

(** X12.  Over the reals (GLSL floats idealised as real numbers: no
    rounding, no infinity, no NaN), the cube-map coordinate depends only on
    the direction of (model * position).xyz: when that vector is not zero, a
    second model matrix whose image is k times the first, k > 0, gives the
    same coordinate, whatever the two mvp matrices. *)
Theorem X12_cubemap_direction_ignores_scale
    (u_model u_model' u_mvp u_mvp' : mat4) (a_position : vec4) (k : R) :
  0 < k ->
  xyz (mul_mat4_vec4 u_model a_position) <> Vec3 0 0 0 ->
  xyz (mul_mat4_vec4 u_model' a_position) = scale3 k (xyz (mul_mat4_vec4 u_model a_position)) ->
  v_tex_coord (CubemapShader.VERTEX_SHADER u_model' u_mvp' a_position)
  = v_tex_coord (CubemapShader.VERTEX_SHADER u_model u_mvp a_position).
Proof.
  intros Hk _ H. unfold CubemapShader.VERTEX_SHADER; cbn [v_tex_coord].
  rewrite H, normalize_scale by exact Hk. reflexivity.
Qed.

Lemma X12_doubling_the_model :
  v_tex_coord (CubemapShader.VERTEX_SHADER doubling mat4_identity (Vec4 1 2 3 1))
  = v_tex_coord (CubemapShader.VERTEX_SHADER mat4_identity doubling (Vec4 1 2 3 1)).
Proof.
  apply (X12_cubemap_direction_ignores_scale mat4_identity doubling doubling mat4_identity
           (Vec4 1 2 3 1) 2).
  - lra.
  - intros H. apply (f_equal z3) in H. cbn in H. lra.
  - unfold mul_mat4_vec4, xyz, scale3, doubling, mat4_identity; cbn. f_equal; lra.
Defined.

(** X13.  Over the reals (GLSL floats idealised as real numbers: no
    rounding, no infinity, no NaN), in the reflection stage, when the w of
    mv * position is not zero and the transformed normal is not the zero
    vector, the reflected vector is as long as the view-space position it
    reflects. *)
Theorem X13_reflection_keeps_length (u_mv u_mv_it : mat4) (a_position : vec4) (a_normal : vec3) :
  w4 (mul_mat4_vec4 u_mv a_position) <> 0 ->
  transform_point u_mv_it a_normal <> Vec3 0 0 0 ->
  length3 (reflected_position u_mv u_mv_it a_position a_normal)
  = length3 (div3 (xyz (mul_mat4_vec4 u_mv a_position)) (w4 (mul_mat4_vec4 u_mv a_position))).
Proof.
  intros _ Hn. unfold reflected_position.
  set (i := div3 _ _). set (u := normalize _).
  assert (Hu : dot u u = 1) by (apply normalize_unit, Hn).
  unfold length3. f_equal.
  replace (dot (reflect i u) (reflect i u))
    with (dot i i + 4 * (dot u i * dot u i) * (dot u u - 1))
    by (unfold reflect, sub3, scale3, dot; cbn; ring).
  rewrite Hu. ring.
Qed.

Lemma X13_reflected_off_the_z_plane :
  length3 (reflected_position mat4_identity mat4_identity (Vec4 1 2 3 1) (Vec3 0 0 1))
  = length3 (div3 (xyz (mul_mat4_vec4 mat4_identity (Vec4 1 2 3 1)))
                  (w4 (mul_mat4_vec4 mat4_identity (Vec4 1 2 3 1)))).
Proof.
  apply (X13_reflection_keeps_length mat4_identity mat4_identity (Vec4 1 2 3 1) (Vec3 0 0 1)).
  - cbn. lra.
  - intros H. apply (f_equal z3) in H. cbn in H. lra.
Defined.

(** X14.  Over the reals (GLSL floats idealised as real numbers: no
    rounding, no infinity, no NaN), when the w of mv * position is not zero
    and the transformed normal is not the zero vector, the reflection
    stage's coordinate is the direction transform of the reflected vector (z
    negated) exactly when the translation column of the view-inverse matrix
    is zero. *)
Theorem X14_reflection_is_a_direction_iff_no_translation
    (u_mv u_mv_it u_mvp u_view_i : mat4) (a_position : vec4) (a_normal : vec3) :
  w4 (mul_mat4_vec4 u_mv a_position) <> 0 ->
  transform_point u_mv_it a_normal <> Vec3 0 0 0 ->
  v_tex_coord (CubemapReflectionShader.VERTEX_SHADER u_mv u_mv_it u_mvp u_view_i
                 a_position a_normal)
  = reflection_as_direction u_mv u_mv_it u_view_i a_position a_normal
  <-> xyz (col3 u_view_i) = Vec3 0 0 0.
Proof.
  intros _ _.
  unfold CubemapReflectionShader.VERTEX_SHADER, reflection_as_direction.
  cbn [v_tex_coord].
  fold (transform_point u_mv_it a_normal).
  fold (reflected_position u_mv u_mv_it a_position a_normal).
  set (r := reflected_position _ _ _ _).
  fold (transform_point u_view_i r).
  rewrite transform_point_direction.
  set (d := transform_direction u_view_i r). set (t := xyz (col3 u_view_i)).
  destruct d as [dx dy dz], t as [tx ty tz]. unfold add3, set_z; cbn.
  split; intros H; inversion H; f_equal; lra.
Qed.

Lemma X14_camera_moved_to_1_0_0 :
  v_tex_coord (CubemapReflectionShader.VERTEX_SHADER mat4_identity mat4_identity mat4_identity
                 camera_at_1_0_0 (Vec4 1 2 3 1) (Vec3 0 0 1))
  = reflection_as_direction mat4_identity mat4_identity camera_at_1_0_0
      (Vec4 1 2 3 1) (Vec3 0 0 1)
  <-> xyz (col3 camera_at_1_0_0) = Vec3 0 0 0.
Proof.
  apply (X14_reflection_is_a_direction_iff_no_translation mat4_identity mat4_identity
           mat4_identity camera_at_1_0_0 (Vec4 1 2 3 1) (Vec3 0 0 1)).
  - cbn. lra.
  - intros H. apply (f_equal z3) in H. cbn in H. lra.
Defined.

(** X15.  Over the reals (GLSL floats idealised as real numbers: no
    rounding, no infinity, no NaN), the reflection stage divides by w:
    multiplying the homogeneous position by any k <> 0 leaves the texture
    coordinate unchanged, provided the w of mv * position is not zero and the
    transformed normal is not the zero vector. *)
Theorem X15_reflection_ignores_homogeneous_scale
    (u_mv u_mv_it u_mvp u_view_i : mat4) (a_position : vec4) (a_normal : vec3) (k : R) :
  k <> 0 ->
  w4 (mul_mat4_vec4 u_mv a_position) <> 0 ->
  transform_point u_mv_it a_normal <> Vec3 0 0 0 ->
  v_tex_coord (CubemapReflectionShader.VERTEX_SHADER u_mv u_mv_it u_mvp u_view_i
                 (scale4 k a_position) a_normal)
  = v_tex_coord (CubemapReflectionShader.VERTEX_SHADER u_mv u_mv_it u_mvp u_view_i
                   a_position a_normal).
Proof.
  intros Hk Hw _. unfold CubemapReflectionShader.VERTEX_SHADER; cbn [v_tex_coord].
  rewrite mul_mat4_scale4.
  replace (div3 (xyz (scale4 k (mul_mat4_vec4 u_mv a_position)))
             (w4 (scale4 k (mul_mat4_vec4 u_mv a_position))))
    with (div3 (xyz (mul_mat4_vec4 u_mv a_position)) (w4 (mul_mat4_vec4 u_mv a_position)));
    [reflexivity|].
  unfold div3, xyz, scale4; cbn. f_equal; field; split; assumption.
Qed.

Lemma X15_position_with_w_2 :
  v_tex_coord (CubemapReflectionShader.VERTEX_SHADER mat4_identity mat4_identity mat4_identity
                 mat4_identity (scale4 2 (Vec4 1 2 3 1)) (Vec3 0 0 1))
  = v_tex_coord (CubemapReflectionShader.VERTEX_SHADER mat4_identity mat4_identity
                   mat4_identity mat4_identity (Vec4 1 2 3 1) (Vec3 0 0 1)).
Proof.
  apply (X15_reflection_ignores_homogeneous_scale mat4_identity mat4_identity mat4_identity
           mat4_identity (Vec4 1 2 3 1) (Vec3 0 0 1) 2).
  - lra.
  - cbn. lra.
  - intros H. apply (f_equal z3) in H. cbn in H. lra.
Defined.

(** X16.  Over the reals (GLSL floats idealised as real numbers: no
    rounding, no infinity, no NaN), in all four fragment stages a white
    material of opacity 1 leaves the sample unchanged, opacity 0 gives
    transparent black for every real sample and colour, and scaling the
    opacity by k scales all four output channels by k. *)
Theorem X16_fragment_white_transparent_and_scaled :
  (forall (u_texture : samplerCube) coord u_color u_opacity k,
     let out := CubemapShader.FRAGMENT_SHADER u_texture u_color u_opacity coord in
     CubemapShader.FRAGMENT_SHADER u_texture (Vec3 1 1 1) 1 coord = u_texture coord
     /\ CubemapShader.FRAGMENT_SHADER u_texture u_color 0 coord = Vec4 0 0 0 0
     /\ CubemapShader.FRAGMENT_SHADER u_texture u_color (k * u_opacity) coord
        = scale4 k out)
  /\ (forall (u_texture : samplerCube) coord u_color u_opacity k,
     let out := CubemapReflectionShader.FRAGMENT_SHADER u_texture u_color u_opacity coord in
     CubemapReflectionShader.FRAGMENT_SHADER u_texture (Vec3 1 1 1) 1 coord = u_texture coord
     /\ CubemapReflectionShader.FRAGMENT_SHADER u_texture u_color 0 coord = Vec4 0 0 0 0
     /\ CubemapReflectionShader.FRAGMENT_SHADER u_texture u_color (k * u_opacity) coord
        = scale4 k out)
  /\ (forall (u_texture : samplerExternalOES) coord u_color u_opacity k,
     let out := OESShader.FRAGMENT_SHADER u_texture u_color u_opacity coord in
     OESShader.FRAGMENT_SHADER u_texture (Vec3 1 1 1) 1 coord = u_texture coord
     /\ OESShader.FRAGMENT_SHADER u_texture u_color 0 coord = Vec4 0 0 0 0
     /\ OESShader.FRAGMENT_SHADER u_texture u_color (k * u_opacity) coord = scale4 k out)
  /\ (forall (u_texture : sampler2D) coord u_color u_opacity u_right k,
     let out :=
       UnlitVerticalStereoShader.FRAGMENT_SHADER u_texture u_color u_opacity u_right coord in
     UnlitVerticalStereoShader.FRAGMENT_SHADER u_texture (Vec3 1 1 1) 1 u_right coord
     = u_texture (UnlitVerticalStereoShader.tex_coord u_right coord)
     /\ UnlitVerticalStereoShader.FRAGMENT_SHADER u_texture u_color 0 u_right coord
        = Vec4 0 0 0 0
     /\ UnlitVerticalStereoShader.FRAGMENT_SHADER u_texture u_color (k * u_opacity) u_right
          coord
        = scale4 k out).
Proof.
  repeat split; intros;
    unfold CubemapShader.FRAGMENT_SHADER, CubemapReflectionShader.FRAGMENT_SHADER,
      OESShader.FRAGMENT_SHADER, UnlitVerticalStereoShader.FRAGMENT_SHADER,
      textureCube, texture2D, scale4; cbn [x4 y4 z4 w4 x3 y3 z3];
    try (destruct coord; cbn [x2 y2 x3 y3 z3]);
    match goal with |- context [x4 ?s] => destruct s end;
    cbn [x4 y4 z4 w4]; f_equal; ring.
Qed.

(** X17.  Over the reals (GLSL floats idealised as real numbers: no
    rounding, no infinity, no NaN), the stereo stage leaves the x coordinate
    alone; for either eye it never decreases with v and is one-to-one; the
    two halves join at the seam, where the left eye at v = 1 and the right
    eye at v = 0 sample the same point; and for v in [0, 1] the two eyes
    sample the same point only there. *)
Theorem X17_stereo_halves_meet_on_the_seam :
  (forall u_right v, x2 (UnlitVerticalStereoShader.tex_coord u_right v) = x2 v)
  /\ (forall u_right v1 v2,
        y2 v1 <= y2 v2 ->
        y2 (UnlitVerticalStereoShader.tex_coord u_right v1)
        <= y2 (UnlitVerticalStereoShader.tex_coord u_right v2))
  /\ (forall u_right v1 v2,
        UnlitVerticalStereoShader.tex_coord u_right v1
        = UnlitVerticalStereoShader.tex_coord u_right v2 -> v1 = v2)
  /\ (forall x,
        UnlitVerticalStereoShader.tex_coord 0 (Vec2 x 1)
        = UnlitVerticalStereoShader.tex_coord 1 (Vec2 x 0))
  /\ (forall v1 v2,
        0 <= y2 v1 <= 1 -> 0 <= y2 v2 <= 1 ->
        UnlitVerticalStereoShader.tex_coord 0 v1 = UnlitVerticalStereoShader.tex_coord 1 v2 ->
        x2 v1 = x2 v2 /\ y2 v1 = 1 /\ y2 v2 = 0).
Proof.
  unfold UnlitVerticalStereoShader.tex_coord, float.
  split; [|split; [|split; [|split]]].
  - intros u v. reflexivity.
  - intros u [x1 y1] [x y]; cbn [x2 y2]. intros H. lra.
  - intros u [x1 y1] [x y]; cbn [x2 y2]. intros H; inversion H. f_equal. lra.
  - intros x. cbn [x2 y2]. f_equal. lra.
  - intros [x1 y1] [x y]; cbn [x2 y2]. intros H1 H2 H; inversion H. lra.
Qed.

Lemma X17_bottom_of_left_is_top_of_right :
  y2 (UnlitVerticalStereoShader.tex_coord 1 (Vec2 0.25 0))
  <= y2 (UnlitVerticalStereoShader.tex_coord 1 (Vec2 0.25 1))
  /\ (x2 (Vec2 0.25 1) = x2 (Vec2 0.25 0) /\ y2 (Vec2 0.25 1) = 1 /\ y2 (Vec2 0.25 0) = 0).
Proof.
  split.
  - apply (proj1 (proj2 X17_stereo_halves_meet_on_the_seam) 1%Z (Vec2 0.25 0) (Vec2 0.25 1)).
    cbn. lra.
  - apply (proj2 (proj2 (proj2 (proj2 X17_stereo_halves_meet_on_the_seam)))
             (Vec2 0.25 1) (Vec2 0.25 0)); cbn; try lra.
    apply (proj1 (proj2 (proj2 (proj2 X17_stereo_halves_meet_on_the_seam)))).
Defined.

End MoreStages.

(** ** The member functions *)

(** One call of a run, seen through a component that it may leave alone. *)
Ltac by_cases_on_call c :=
  destruct c; cbn; unfold set_uniform;
  repeat match goal with |- context [if ?b then _ else _] => destruct b end;
  reflexivity.

Lemma current_program_run calls : forall ctx,
  current_program (gl_run ctx calls) = program_after (current_program ctx) calls.
Proof.
  induction calls as [|c calls IH]; intros ctx; [reflexivity|].
  rewrite gl_run_cons, IH. by_cases_on_call c.
Qed.

Lemma active_texture_run calls : forall ctx,
  active_texture (gl_run ctx calls) = unit_after (active_texture ctx) calls.
Proof.
  induction calls as [|c calls IH]; intros ctx; [reflexivity|].
  rewrite gl_run_cons, IH. by_cases_on_call c.
Qed.

Lemma texture_bindings_run calls : forall ctx,
  texture_bindings (gl_run ctx calls)
  = textures_after (active_texture ctx) (texture_bindings ctx) calls.
Proof.
  induction calls as [|c calls IH]; intros ctx; [reflexivity|].
  rewrite gl_run_cons, IH. by_cases_on_call c.
Qed.

Lemma vertex_array_run calls : forall ctx,
  vertex_array (gl_run ctx calls) = vertex_array_after (vertex_array ctx) calls.
Proof.
  induction calls as [|c calls IH]; intros ctx; [reflexivity|].
  rewrite gl_run_cons, IH. by_cases_on_call c.
Qed.

Lemma attrib_arrays_run calls : forall ctx,
  attrib_arrays (gl_run ctx calls) = attribs_after (attrib_arrays ctx) calls.
Proof.
  induction calls as [|c calls IH]; intros ctx; [reflexivity|].
  rewrite gl_run_cons, IH. by_cases_on_call c.
Qed.

Lemma attrib_enabled_run calls : forall ctx,
  attrib_enabled (gl_run ctx calls) = enabled_after (attrib_enabled ctx) calls.
Proof.
  induction calls as [|c calls IH]; intros ctx; [reflexivity|].
  rewrite gl_run_cons, IH. by_cases_on_call c.
Qed.

Lemma uniforms_run calls : forall ctx l,
  l <> -1 ->
  forallb (fun c => negb (changes_program c)) calls = true ->
  uniforms (gl_run ctx calls) !! (current_program ctx, l)
  = match last_value l calls with
    | Some v => Some v
    | None => uniforms ctx !! (current_program ctx, l)
    end.
Proof.
  induction calls as [|c calls IH]; intros ctx l Hl H; [reflexivity|].
  cbn in H. apply andb_prop in H as [Hc H]. apply negb_true_iff in Hc.
  rewrite gl_run_cons. rewrite <- (gl_apply_keeps_program ctx c Hc) at 1.
  rewrite IH by assumption. cbn [last_value].
  destruct (last_value l calls); [reflexivity|].
  rewrite (gl_apply_keeps_program ctx c Hc).
  destruct c; cbn; try reflexivity; try discriminate;
    try (destruct (index <? 0); reflexivity);
    unfold set_uniform;
    (destruct (location =? -1) eqn:E1;
     [ apply Z.eqb_eq in E1; subst location;
       rewrite (proj2 (Z.eqb_neq (-1) l)) by congruence; reflexivity
     | cbn; destruct (location =? l) eqn:E2;
       [ apply Z.eqb_eq in E2; subst; apply lookup_insert_eq
       | apply Z.eqb_neq in E2; apply lookup_insert_ne; congruence ] ]).
Qed.

Lemma uniforms_after_use calls ctx p l :
  l <> -1 ->
  forallb (fun c => negb (changes_program c)) calls = true ->
  uniforms (gl_run ctx (UseProgram p :: calls)) !! (p, l)
  = match last_value l calls with
    | Some v => Some v
    | None => uniforms ctx !! (p, l)
    end.
Proof.
  intros Hl H. rewrite gl_run_cons.
  apply (uniforms_run calls (gl_apply ctx (UseProgram p)) l Hl H).
Qed.

(** The facts a [found_and_distinct] hypothesis packs, one per hypothesis. *)
Ltac unpack_distinct H :=
  unfold found_and_distinct in H; cbn in H;
  rewrite ?andb_true_iff, ?negb_true_iff, ?orb_false_iff in H;
  repeat match goal with H : _ /\ _ |- _ => destruct H end.

Ltac use_distinct :=
  repeat match goal with
    | H : (?a =? ?b) = false |- context [?a =? ?b] => rewrite H
    | H : (?a =? ?b) = false |- context [?b =? ?a] => rewrite (Z.eqb_sym b a), H
    | |- context [?a =? ?a] => rewrite (Z.eqb_refl a)
    end.

(** X7.  render does not restore the bindings it changes: afterwards the
    variant's program is current, GL_TEXTURE0 is the active unit with the
    material's texture bound to the variant's target, and the vertex array
    binding is 0 in the GLES3 build and untouched in the GLES2 build. *)
Theorem X7_bindings_left_behind
    (GVRF_USE_GLES3 : bool) (s : shader) (a : render_args) (rd : RenderData) (w : World)
    (texture : Texture) (color : vec3) (opacity : R) (program : GLProgram) :
  getTexture (material rd) MAIN_TEXTURE = Ok texture ->
  getVec3 (material rd) COLOR = Ok color ->
  getFloat (material rd) OPACITY = Ok opacity ->
  getTarget texture = required_target (variant_of s) ->
  heap w !! program_of s = Some program ->
  exists w' t,
    render GVRF_USE_GLES3 s a rd w = (Return tt, w')
    /\ trace w' = trace w ++ t
    /\ forall ctx : GLContext,
       let ctx' := gl_run ctx (gl_calls t) in
       current_program ctx' = id program
       /\ active_texture ctx' = GL_TEXTURE0
       /\ texture_bindings ctx' !! (GL_TEXTURE0, required_target (variant_of s))
          = Some (getId texture)
       /\ vertex_array ctx' = (if GVRF_USE_GLES3 then 0 else vertex_array ctx).
Proof.
  intros Ht Hc Ho Htg Hp.
  destruct s, GVRF_USE_GLES3; unfold_classes; unfold_ops; cbn in *;
    step Ht; step Hc; step Ho; step Htg; step Hp;
    (do 2 eexists; split; [reflexivity|]); flatten_trace;
    (split; [reflexivity|]); intros ctx; cbn [gl_calls];
    rewrite current_program_run, active_texture_run, texture_bindings_run, vertex_array_run;
    cbn; rewrite lookup_insert_eq; auto.
Qed.

Lemma X7_after_the_quad :
  exists w' t,
    render false (VerticalStereo stereo1) (args0 false) (scene GL_TEXTURE_2D) world1
    = (Return tt, w')
    /\ trace w' = trace world1 ++ t
    /\ forall ctx : GLContext,
       let ctx' := gl_run ctx (gl_calls t) in
       current_program ctx' = 3
       /\ active_texture ctx' = GL_TEXTURE0
       /\ texture_bindings ctx' !! (GL_TEXTURE0, GL_TEXTURE_2D) = Some 7
       /\ vertex_array ctx' = vertex_array ctx.
Proof.
  apply (X7_bindings_left_behind false (VerticalStereo stereo1) (args0 false)
           (scene GL_TEXTURE_2D) world1 {| getTarget := GL_TEXTURE_2D; getId := 7 |} (Vec3 1 1 1) 1%R {| id := 3 |});
    reflexivity.
Defined.

(** X5.  In a render that passes the target check, the first GL call makes
    the variant's own program current, no other call changes the program, and
    nothing follows the draw call except, in the GLES3 build, the unbinding
    of the vertex array. *)
Theorem X5_program_first_draw_last
    (GVRF_USE_GLES3 : bool) (s : shader) (a : render_args) (rd : RenderData) (w : World)
    (texture : Texture) (color : vec3) (opacity : R) (program : GLProgram) :
  getTexture (material rd) MAIN_TEXTURE = Ok texture ->
  getVec3 (material rd) COLOR = Ok color ->
  getFloat (material rd) OPACITY = Ok opacity ->
  getTarget texture = required_target (variant_of s) ->
  heap w !! program_of s = Some program ->
  exists w' t,
    render GVRF_USE_GLES3 s a rd w = (Return tt, w')
    /\ trace w' = trace w ++ t
    /\ hd_error (gl_calls t) = Some (UseProgram (id program))
    /\ List.filter changes_program (gl_calls t) = [UseProgram (id program)]
    /\ after_draw (gl_calls t) = (if GVRF_USE_GLES3 then [BindVertexArray 0] else []).
Proof.
  intros Ht Hc Ho Htg Hp.
  destruct s, GVRF_USE_GLES3; unfold_classes; unfold_ops; cbn in *;
    step Ht; step Hc; step Ho; step Htg; step Hp;
    (do 2 eexists; split; [reflexivity|]); flatten_trace;
    (split; [reflexivity|]); cbn; auto.
Qed.

Lemma X5_the_quad_in_the_gles3_build :
  exists w' t,
    render true (VerticalStereo stereo1) (args0 false) (scene GL_TEXTURE_2D) world1
    = (Return tt, w')
    /\ trace w' = trace world1 ++ t
    /\ hd_error (gl_calls t) = Some (UseProgram 3)
    /\ List.filter changes_program (gl_calls t) = [UseProgram 3]
    /\ after_draw (gl_calls t) = [BindVertexArray 0].
Proof.
  apply (X5_program_first_draw_last true (VerticalStereo stereo1) (args0 false)
           (scene GL_TEXTURE_2D) world1 {| getTarget := GL_TEXTURE_2D; getId := 7 |} (Vec3 1 1 1) 1%R {| id := 3 |});
    reflexivity.
Defined.

(** X6.  The two builds make the same reads and the same GL calls apart
    from those that supply vertex data, and draw with the same mode, count
    and index type; the GLES2 build makes no mesh call, and the only
    vertex-data calls of the GLES3 build are bind vertex array, draw from
    buffer offset 0, unbind. *)
Theorem X6_the_two_builds_agree
    (s : shader) (a : render_args) (rd : RenderData) (w : World)
    (texture : Texture) (color : vec3) (opacity : R) (program : GLProgram) :
  getTexture (material rd) MAIN_TEXTURE = Ok texture ->
  getVec3 (material rd) COLOR = Ok color ->
  getFloat (material rd) OPACITY = Ok opacity ->
  getTarget texture = required_target (variant_of s) ->
  heap w !! program_of s = Some program ->
  exists w3 t3 w2 t2,
    render true s a rd w = (Return tt, w3) /\ trace w3 = trace w ++ t3
    /\ render false s a rd w = (Return tt, w2) /\ trace w2 = trace w ++ t2
    /\ List.filter (fun c => negb (supplies_vertices c)) (gl_calls t3)
       = List.filter (fun c => negb (supplies_vertices c)) (gl_calls t2)
    /\ map draw_header (draw_calls t3) = map draw_header (draw_calls t2)
    /\ reads t3 = reads t2
    /\ mesh_calls t2 = []
    /\ List.filter supplies_vertices (gl_calls t3)
       = [ BindVertexArray (getVAOId (mesh rd));
           DrawElements GL_TRIANGLES (vector_size (triangles (mesh rd))) GL_UNSIGNED_SHORT
             (BufferOffset 0);
           BindVertexArray 0 ].
Proof.
  intros Ht Hc Ho Htg Hp.
  destruct s; unfold_classes; unfold_ops; cbn in *;
    step Ht; step Hc; step Ho; step Htg; step Hp;
    (do 4 eexists; split; [reflexivity|]); flatten_trace;
    (split; [reflexivity|]); (split; [reflexivity|]); (split; [reflexivity|]);
    cbn; auto 10.
Qed.

Lemma X6_the_quad_in_both_builds :
  exists w3 t3 w2 t2,
    render true (VerticalStereo stereo1) (args0 true) (scene GL_TEXTURE_2D) world1
    = (Return tt, w3)
    /\ trace w3 = trace world1 ++ t3
    /\ render false (VerticalStereo stereo1) (args0 true) (scene GL_TEXTURE_2D) world1
       = (Return tt, w2)
    /\ trace w2 = trace world1 ++ t2
    /\ List.filter (fun c => negb (supplies_vertices c)) (gl_calls t3)
       = List.filter (fun c => negb (supplies_vertices c)) (gl_calls t2)
    /\ map draw_header (draw_calls t3) = map draw_header (draw_calls t2)
    /\ reads t3 = reads t2
    /\ mesh_calls t2 = []
    /\ List.filter supplies_vertices (gl_calls t3)
       = [ BindVertexArray 1;
           DrawElements GL_TRIANGLES 6 GL_UNSIGNED_SHORT (BufferOffset 0);
           BindVertexArray 0 ].
Proof.
  apply (X6_the_two_builds_agree (VerticalStereo stereo1) (args0 true)
           (scene GL_TEXTURE_2D) world1 {| getTarget := GL_TEXTURE_2D; getId := 7 |} (Vec3 1 1 1) 1%R {| id := 3 |});
    reflexivity.
Defined.

Lemma render_calls_fixed
    (GVRF_USE_GLES3 : bool) (s : shader) (a : render_args) (rd : RenderData)
    (texture : Texture) (color : vec3) (opacity : R) (program : GLProgram) :
  getTexture (material rd) MAIN_TEXTURE = Ok texture ->
  getVec3 (material rd) COLOR = Ok color ->
  getFloat (material rd) OPACITY = Ok opacity ->
  getTarget texture = required_target (variant_of s) ->
  exists t,
    (forall w, heap w !! program_of s = Some program ->
       exists w', render GVRF_USE_GLES3 s a rd w = (Return tt, w')
         /\ trace w' = trace w ++ t
         /\ heap w' = heap w /\ next_ptr w' = next_ptr w /\ driver w' = driver w)
    /\ deletes t = [].
Proof.
  intros Ht Hc Ho Htg.
  destruct s, GVRF_USE_GLES3; eexists; (split; [intros w Hp|]).
  all: try (unfold_classes; unfold_ops; cbn in *;
            step Ht; step Hc; step Ho; step Htg; step Hp;
            (eexists; split; [reflexivity|]); flatten_trace;
            (split; [reflexivity|]); cbn; auto).
  all: reflexivity.
Qed.

(** X4.  render neither creates nor releases a program: a second render
    with the same arguments succeeds and makes the same calls again, and
    heap and allocator are as before. *)
Theorem X4_render_can_be_repeated
    (GVRF_USE_GLES3 : bool) (s : shader) (a : render_args) (rd : RenderData) (w : World)
    (texture : Texture) (color : vec3) (opacity : R) (program : GLProgram) :
  getTexture (material rd) MAIN_TEXTURE = Ok texture ->
  getVec3 (material rd) COLOR = Ok color ->
  getFloat (material rd) OPACITY = Ok opacity ->
  getTarget texture = required_target (variant_of s) ->
  heap w !! program_of s = Some program ->
  exists w1 w2 t,
    render GVRF_USE_GLES3 s a rd w = (Return tt, w1)
    /\ render GVRF_USE_GLES3 s a rd w1 = (Return tt, w2)
    /\ trace w1 = trace w ++ t
    /\ trace w2 = trace w1 ++ t
    /\ deletes t = []
    /\ heap w2 = heap w /\ next_ptr w2 = next_ptr w.
Proof.
  intros Ht Hc Ho Htg Hp.
  destruct (render_calls_fixed GVRF_USE_GLES3 s a rd texture color opacity program
              Ht Hc Ho Htg) as (t & Hrun & Hdel).
  destruct (Hrun w Hp) as (w1 & R1 & T1 & H1 & N1 & _).
  assert (Hp1 : heap w1 !! program_of s = Some program) by (rewrite H1; exact Hp).
  destruct (Hrun w1 Hp1) as (w2 & R2 & T2 & H2 & N2 & _).
  exists w1, w2, t. repeat split; try assumption; congruence.
Qed.

Lemma X4_the_quad_rendered_twice :
  exists w1 w2 t,
    render true (VerticalStereo stereo1) (args0 false) (scene GL_TEXTURE_2D) world1
    = (Return tt, w1)
    /\ render true (VerticalStereo stereo1) (args0 false) (scene GL_TEXTURE_2D) w1
       = (Return tt, w2)
    /\ trace w1 = trace world1 ++ t
    /\ trace w2 = trace w1 ++ t
    /\ deletes t = []
    /\ heap w2 = heap world1 /\ next_ptr w2 = next_ptr world1.
Proof.
  apply (X4_render_can_be_repeated true (VerticalStereo stereo1) (args0 false)
           (scene GL_TEXTURE_2D) world1 {| getTarget := GL_TEXTURE_2D; getId := 7 |} (Vec3 1 1 1) 1%R {| id := 3 |});
    reflexivity.
Defined.

(** X3.  After recycle the program member is null, and a render that
    passes the target check dereferences it: the outcome is undefined
    behaviour, reached before any GL call is made and before anything is
    logged. *)
Theorem X3_render_after_recycle_is_undefined
    (GVRF_USE_GLES3 : bool) (s : shader) (a : render_args) (rd : RenderData) (w : World)
    (texture : Texture) (color : vec3) (opacity : R) (program : GLProgram) :
  getTexture (material rd) MAIN_TEXTURE = Ok texture ->
  getVec3 (material rd) COLOR = Ok color ->
  getFloat (material rd) OPACITY = Ok opacity ->
  getTarget texture = required_target (variant_of s) ->
  program_of s <> 0 ->
  heap w !! program_of s = Some program ->
  heap w !! 0 = None ->
  exists s1 w1 w2 t,
    recycle s w = (Return s1, w1)
    /\ render GVRF_USE_GLES3 s1 a rd w1 = (Undefined, w2)
    /\ trace w2 = trace w1 ++ t
    /\ gl_calls t = []
    /\ logged w2 = logged w.
Proof.
  intros Ht Hc Ho Htg Hnz Hp H0.
  assert (Hd : delete (program_of s) (heap w) !! 0 = None)
    by (rewrite lookup_delete_ne by exact Hnz; exact H0).
  apply Z.eqb_neq in Hnz.
  destruct s, GVRF_USE_GLES3; unfold_classes; unfold_ops; cbn in *;
    step Hnz; step Hp;
    (do 4 eexists; split; [reflexivity|]); cbn;
    step Ht; step Hc; step Ho; step Htg; step Hd;
    (split; [reflexivity|]); flatten_trace;
    (split; [reflexivity|]); cbn; auto.
Qed.

Lemma X3_stereo_rendered_after_recycle :
  exists s1 w1 w2 t,
    recycle (VerticalStereo stereo1) world1 = (Return s1, w1)
    /\ render false s1 (args0 false) (scene GL_TEXTURE_2D) w1 = (Undefined, w2)
    /\ trace w2 = trace w1 ++ t
    /\ gl_calls t = []
    /\ logged w2 = logged world1.
Proof.
  apply (X3_render_after_recycle_is_undefined false (VerticalStereo stereo1) (args0 false)
           (scene GL_TEXTURE_2D) world1 {| getTarget := GL_TEXTURE_2D; getId := 7 |} (Vec3 1 1 1) 1%R {| id := 3 |});
    [reflexivity | reflexivity | reflexivity | reflexivity | discriminate
    | reflexivity | reflexivity].
Defined.

Lemma pos_succ_ne (n : positive) : Z.pos n <> Z.pos (Pos.succ n).
Proof. lia. Qed.

(** X1.  Two variants constructed one after the other own different
    programs, both live; recycling the first nulls its member and releases
    its program only: the second variant's program stays live. *)
Theorem X1_two_variants_own_separate_programs (v1 v2 : variant) (w : World) (i1 i2 : Z) :
  let p1 := Z.pos (next_ptr w) in
  let p2 := Z.pos (Pos.succ (next_ptr w)) in
  program_name (driver w) p1 = Ok i1 ->
  program_name (driver w) p2 = Ok i2 ->
  exists s1 w1 s2 w2 s1' w3,
    new v1 w = (Return s1, w1)
    /\ new v2 w1 = (Return s2, w2)
    /\ program_of s1 = p1 /\ program_of s2 = p2 /\ p1 <> p2
    /\ heap w2 !! p1 = Some {| id := i1 |}
    /\ heap w2 !! p2 = Some {| id := i2 |}
    /\ recycle s1 w2 = (Return s1', w3)
    /\ program_of s1' = 0
    /\ heap w3 !! p1 = None
    /\ heap w3 !! p2 = Some {| id := i2 |}.
Proof.
  intros p1 p2 H1 H2. subst p1 p2. pose proof (pos_succ_ne (next_ptr w)) as Hne.
  destruct v1, v2; do 6 eexists; unfold_classes; unfold_ops; cbn; step H1;
    repeat (rewrite lookup_insert_eq; cbn);
    (split; [reflexivity|]); cbn; step H2;
    repeat (rewrite lookup_insert_eq; cbn);
    (split; [reflexivity|]); cbn;
    (split; [reflexivity|]); (split; [reflexivity|]); (split; [exact Hne|]);
    (split; [rewrite lookup_insert_ne by lia; apply lookup_insert_eq|]);
    (split; [apply lookup_insert_eq|]);
    rewrite lookup_insert_ne by lia; rewrite lookup_insert_eq; cbn;
    (split; [reflexivity|]); cbn; (split; [reflexivity|]);
    (split; [apply lookup_delete_eq|]);
    rewrite lookup_delete_ne by lia; apply lookup_insert_eq.
Qed.

Lemma X1_an_oes_and_a_cubemap_variant :
  exists s1 w1 s2 w2 s1' w3,
    new VOES world0 = (Return s1, w1)
    /\ new VCubemap w1 = (Return s2, w2)
    /\ program_of s1 = 1 /\ program_of s2 = 2 /\ 1 <> 2
    /\ heap w2 !! 1 = Some {| id := 3 |}
    /\ heap w2 !! 2 = Some {| id := 4 |}
    /\ recycle s1 w2 = (Return s1', w3)
    /\ program_of s1' = 0
    /\ heap w3 !! 1 = None
    /\ heap w3 !! 2 = Some {| id := 4 |}.
Proof.
  apply (X1_two_variants_own_separate_programs VOES VCubemap world0 3 4); reflexivity.
Defined.

(** X2.  Constructing a variant at a free address and destroying it gives
    the heap back as it was: the destructor of a live variant acts as
    recycle, and the trace holds the creation, the constructor's location
    queries and one delete. *)
Theorem X2_construct_then_destroy_restores_the_heap (v : variant) (w : World) (i : Z) :
  let p := Z.pos (next_ptr w) in
  program_name (driver w) p = Ok i ->
  heap w !! p = None ->
  exists s w1 s' w2,
    new v w = (Return s, w1)
    /\ destroy s w1 = (Return s', w2)
    /\ destroy s w1 = recycle s w1
    /\ program_of s' = 0
    /\ heap w2 = heap w
    /\ trace w2 = trace w ++ EvNew p :: map EvGL (constructor_queries v i) ++ [EvDelete p].
Proof.
  intros p Hi Hfree. subst p.
  destruct v; unfold_classes; unfold_ops; cbn; step Hi;
    repeat (rewrite lookup_insert_eq; cbn);
    (do 4 eexists; split; [reflexivity|]); cbn;
    repeat (rewrite lookup_insert_eq; cbn);
    (split; [reflexivity|]); (split; [reflexivity|]); (split; [reflexivity|]);
    (split; [apply delete_insert_id, Hfree|]); flatten_trace; reflexivity.
Qed.

Lemma X2_a_stereo_variant_comes_and_goes :
  exists s w1 s' w2,
    new VVerticalStereo world0 = (Return s, w1)
    /\ destroy s w1 = (Return s', w2)
    /\ destroy s w1 = recycle s w1
    /\ program_of s' = 0
    /\ heap w2 = heap world0
    /\ trace w2 = trace world0
         ++ EvNew 1 :: map EvGL (constructor_queries VVerticalStereo 3) ++ [EvDelete 1].
Proof.
  apply (X2_construct_then_destroy_restores_the_heap VVerticalStereo world0 3); reflexivity.
Defined.

(** X8.  Construction followed by render gives each uniform of the GLSL
    source its value by name: when the GL finds the variant's uniform names
    at pairwise distinct locations, after render the uniform named u_mvp
    holds the mvp matrix, u_texture holds unit 0, u_color the material colour,
    u_opacity the opacity, and likewise u_model, u_mv, u_mv_it, u_view_i and
    u_right for the variants that have them. *)
Theorem X8_uniforms_hold_their_values_by_name
    (GVRF_USE_GLES3 : bool) (v : variant) (a : render_args) (rd : RenderData) (w : World)
    (i : Z) (texture : Texture) (color : vec3) (opacity : R) :
  program_name (driver w) (Z.pos (next_ptr w)) = Ok i ->
  found_and_distinct (map (uniform_location (driver w) i) (uniform_names v)) = true ->
  getTexture (material rd) MAIN_TEXTURE = Ok texture ->
  getVec3 (material rd) COLOR = Ok color ->
  getFloat (material rd) OPACITY = Ok opacity ->
  getTarget texture = required_target v ->
  exists s w1 w2 t,
    new v w = (Return s, w1)
    /\ render GVRF_USE_GLES3 s a rd w1 = (Return tt, w2)
    /\ trace w2 = trace w1 ++ t
    /\ forall (ctx : GLContext) (name : string),
         In name (uniform_names v) ->
         uniforms (gl_run ctx (gl_calls t)) !! (i, uniform_location (driver w) i name)
         = uniform_of_name a color opacity name
         /\ uniform_of_name a color opacity name <> None.
Proof.
  intros Hi Hd Ht Hc Ho Htg.
  destruct v, GVRF_USE_GLES3; unpack_distinct Hd;
    unfold_classes; unfold_ops; cbn in *; step Hi;
    repeat (rewrite lookup_insert_eq; cbn);
    (do 4 eexists; split; [reflexivity|]); cbn;
    step Ht; step Hc; step Ho; step Htg;
    repeat (rewrite lookup_insert_eq; cbn);
    (split; [reflexivity|]); flatten_trace;
    (split; [reflexivity|]); intros ctx name Hin; cbn [gl_calls];
    repeat (destruct Hin as [<-|Hin]); try contradiction.
  all: rewrite uniforms_after_use by (first [apply Z.eqb_neq; assumption | reflexivity]).
  all: cbn [last_value upload_at]; use_distinct; cbn.
  all: split; [reflexivity|discriminate].
Qed.

Lemma X8_a_stereo_variant_built_and_rendered :
  exists s w1 w2 t,
    new VVerticalStereo world2 = (Return s, w1)
    /\ render false s (args0 true) (scene GL_TEXTURE_2D) w1 = (Return tt, w2)
    /\ trace w2 = trace w1 ++ t
    /\ forall (ctx : GLContext) (name : string),
         In name (uniform_names VVerticalStereo) ->
         uniforms (gl_run ctx (gl_calls t)) !! (3, uniform_location driver1 3 name)
         = uniform_of_name (args0 true) (Vec3 1 1 1) 1%R name
         /\ uniform_of_name (args0 true) (Vec3 1 1 1) 1%R name <> None.
Proof.
  apply (X8_uniforms_hold_their_values_by_name false VVerticalStereo (args0 true)
           (scene GL_TEXTURE_2D) world2 3
           {| getTarget := GL_TEXTURE_2D; getId := 7 |} (Vec3 1 1 1) 1%R);
    reflexivity.
Defined.

(** X9.  In the GLES2 build, after render the position attribute reads
    three floats per vertex from the mesh's vertices and is enabled, and in
    the variants with texture coordinates that attribute reads two floats
    per vertex from the mesh's texture coordinates and is enabled (handles
    found and different). *)
Theorem X9_client_arrays_are_bound
    (s : shader) (a : render_args) (rd : RenderData) (w : World)
    (texture : Texture) (color : vec3) (opacity : R) (program : GLProgram) :
  getTexture (material rd) MAIN_TEXTURE = Ok texture ->
  getVec3 (material rd) COLOR = Ok color ->
  getFloat (material rd) OPACITY = Ok opacity ->
  getTarget texture = required_target (variant_of s) ->
  heap w !! program_of s = Some program ->
  0 <= position_handle s ->
  tex_coord_handle s <> Some (position_handle s) ->
  exists w' t,
    render false s a rd w = (Return tt, w')
    /\ trace w' = trace w ++ t
    /\ forall ctx : GLContext,
       let ctx' := gl_run ctx (gl_calls t) in
       attrib_arrays ctx' !! position_handle s
         = Some (3, GL_FLOAT, Floats3 (vertices (mesh rd)))
       /\ position_handle s ∈ attrib_enabled ctx'
       /\ forall tc, tex_coord_handle s = Some tc -> 0 <= tc ->
            attrib_arrays ctx' !! tc = Some (2, GL_FLOAT, Floats2 (tex_coords (mesh rd)))
            /\ tc ∈ attrib_enabled ctx'.
Proof.
  intros Ht Hc Ho Htg Hp Hpos Hne. apply Z.ltb_ge in Hpos.
  destruct s; unfold_classes; unfold_ops; cbn in *;
    step Ht; step Hc; step Ho; step Htg; step Hp;
    (do 2 eexists; split; [reflexivity|]); flatten_trace;
    (split; [reflexivity|]); intros ctx; cbn [gl_calls];
    rewrite attrib_arrays_run, attrib_enabled_run; cbn; rewrite Hpos.
  1, 2: split; [apply lookup_insert_eq|]; split; [set_solver|]; intros tc H; discriminate.
  all: match goal with |- context [if ?b then _ else _] => destruct b eqn:Htc end.
  all: (split; [first [apply lookup_insert_eq
                      | rewrite lookup_insert_ne by congruence; apply lookup_insert_eq]|]);
       (split; [set_solver|]);
       intros tc [= <-] Hge; apply Z.ltb_ge in Hge; try congruence;
       (split; [apply lookup_insert_eq|set_solver]).
Qed.

Lemma X9_the_arrays_of_the_quad :
  exists w' t,
    render false (VerticalStereo stereo1) (args0 false) (scene GL_TEXTURE_2D) world1
    = (Return tt, w')
    /\ trace w' = trace world1 ++ t
    /\ forall ctx : GLContext,
       let ctx' := gl_run ctx (gl_calls t) in
       attrib_arrays ctx' !! 0 = Some (3, GL_FLOAT, Floats3 (vertices quad))
       /\ 0 ∈ attrib_enabled ctx'
       /\ forall tc, Some 1 = Some tc -> 0 <= tc ->
            attrib_arrays ctx' !! tc = Some (2, GL_FLOAT, Floats2 (tex_coords quad))
            /\ tc ∈ attrib_enabled ctx'.
Proof.
  apply (X9_client_arrays_are_bound (VerticalStereo stereo1) (args0 false)
           (scene GL_TEXTURE_2D) world1 {| getTarget := GL_TEXTURE_2D; getId := 7 |} (Vec3 1 1 1) 1%R {| id := 3 |});
    [reflexivity | reflexivity | reflexivity | reflexivity | reflexivity | cbn; lia
    | discriminate].
Defined.

(** X10.  The reflection variant hands its normal handle to the mesh in
    the GLES3 build only: the GLES2 build makes no mesh call and binds and
    enables no attribute other than the position, so the array and the
    enabled flag of every other index, a_normal included, are what they were
    before the call. *)
Theorem X10_normals_reach_only_the_gles3_build
    (self : CubemapReflectionShader.t) (a : render_args) (rd : RenderData) (w : World)
    (texture : Texture) (color : vec3) (opacity : R) (program : GLProgram) :
  getTexture (material rd) MAIN_TEXTURE = Ok texture ->
  getVec3 (material rd) COLOR = Ok color ->
  getFloat (material rd) OPACITY = Ok opacity ->
  getTarget texture = GL_TEXTURE_CUBE_MAP ->
  heap w !! CubemapReflectionShader.program_ self = Some program ->
  exists w3 t3 w2 t2,
    render true (CubemapReflection self) a rd w = (Return tt, w3)
    /\ trace w3 = trace w ++ t3
    /\ render false (CubemapReflection self) a rd w = (Return tt, w2)
    /\ trace w2 = trace w ++ t2
    /\ mesh_calls t3 = [ SetVertexLoc (CubemapReflectionShader.a_position_ self);
                         SetNormalLoc (CubemapReflectionShader.a_normal_ self);
                         GenerateVAO ]
    /\ mesh_calls t2 = []
    /\ forall (ctx : GLContext) (index : Z),
         index <> CubemapReflectionShader.a_position_ self ->
         attrib_arrays (gl_run ctx (gl_calls t2)) !! index = attrib_arrays ctx !! index
         /\ (index ∈ attrib_enabled (gl_run ctx (gl_calls t2)) <-> index ∈ attrib_enabled ctx).
Proof.
  intros Ht Hc Ho Htg Hp.
  unfold_classes; unfold_ops; cbn in *;
    step Ht; step Hc; step Ho; step Htg; step Hp;
    (do 4 eexists; split; [reflexivity|]); flatten_trace;
    (split; [reflexivity|]); (split; [reflexivity|]); (split; [reflexivity|]);
    (split; [reflexivity|]); (split; [reflexivity|]).
  intros ctx index Hne; cbn [gl_calls].
  rewrite attrib_arrays_run, attrib_enabled_run; cbn.
  destruct (_ <? 0); split; try reflexivity.
  - apply lookup_insert_ne. congruence.
  - rewrite elem_of_union, elem_of_singleton. intuition congruence.
Qed.

Lemma X10_the_reflecting_quad :
  exists w3 t3 w2 t2,
    render true (CubemapReflection reflection1) (args0 false) (scene GL_TEXTURE_CUBE_MAP) world1
    = (Return tt, w3)
    /\ trace w3 = trace world1 ++ t3
    /\ render false (CubemapReflection reflection1) (args0 false) (scene GL_TEXTURE_CUBE_MAP)
         world1
       = (Return tt, w2)
    /\ trace w2 = trace world1 ++ t2
    /\ mesh_calls t3 = [SetVertexLoc 0; SetNormalLoc 1; GenerateVAO]
    /\ mesh_calls t2 = []
    /\ forall (ctx : GLContext) (index : Z),
         index <> 0 ->
         attrib_arrays (gl_run ctx (gl_calls t2)) !! index = attrib_arrays ctx !! index
         /\ (index ∈ attrib_enabled (gl_run ctx (gl_calls t2)) <-> index ∈ attrib_enabled ctx).
Proof.
  apply (X10_normals_reach_only_the_gles3_build reflection1 (args0 false)
           (scene GL_TEXTURE_CUBE_MAP) world1
           {| getTarget := GL_TEXTURE_CUBE_MAP; getId := 7 |} (Vec3 1 1 1) 1%R {| id := 3 |});
    reflexivity.
Defined.
